(** * Tavily search MCP server: dispatch, argument handling and formatting

    A shallow embedding of [src/mcp_servers/tavily_server/main.py].

    The server is dynamically typed Python: the arguments of a tool call are
    a [Dict[str, Any]], the Tavily client returns parsed JSON, and every
    handler formats whatever it receives with f-strings.  The embedding keeps
    that: Python objects are a [value] datatype, every primitive that can
    raise (subscripting, slicing, [len], method lookup, iteration) returns a
    [result], and the handlers run in a small exception-and-log monad whose
    log records each invocation of the Tavily client.

    Conventions.
    - A Python [str] is a [string]; one [ascii] stands for one character, so
      the model covers the code points below 256.
    - The Tavily client is the only collaborator.  It is a record of four
      functions (a [Section] variable), each returning a value or raising;
      what it raises derives from [Exception], as the handlers expect.
    - [logger] calls only write to the process log and are left out; the
      operands they evaluate are kept when evaluating them can raise. *)

From Stdlib Require Import String Ascii List ZArith Lia Bool Arith.
From Stdlib Require Import DecimalString.
From Stdlib Require Import Floats.PrimFloat.
Import ListNotations.

Local Open Scope list_scope.
Local Open Scope string_scope.

(** ** Characters and string literals *)

Definition nl : string := String (ascii_of_nat 10) EmptyString.
Definition dq : string := String (ascii_of_nat 34) EmptyString.
Definition sq : string := String (ascii_of_nat 39) EmptyString.

Fixpoint str_concat (l : list string) : string :=
  match l with
  | [] => EmptyString
  | s :: r => s ++ str_concat r
  end.

(** [sep.join(l)] *)
Fixpoint str_join (sep : string) (l : list string) : string :=
  match l with
  | [] => EmptyString
  | [s] => s
  | s :: r => s ++ sep ++ str_join sep r
  end.

Fixpoint str_take (n : nat) (s : string) : string :=
  match n, s with
  | O, _ => EmptyString
  | _, EmptyString => EmptyString
  | S k, String c r => String c (str_take k r)
  end.

Fixpoint str_mem (c : ascii) (s : string) : bool :=
  match s with
  | EmptyString => false
  | String d r => Ascii.eqb c d || str_mem c r
  end.

Fixpoint str_prefixb (p s : string) : bool :=
  match p, s with
  | EmptyString, _ => true
  | String a p', String b s' => Ascii.eqb a b && str_prefixb p' s'
  | String _ _, EmptyString => false
  end.

(** [sub in s] for two [str] objects *)
Fixpoint str_containsb (sub s : string) : bool :=
  str_prefixb sub s ||
  match s with
  | EmptyString => false
  | String _ r => str_containsb sub r
  end.

(** The text [sub] occurs in [s]. *)
Definition occurs_in (sub s : string) : Prop :=
  exists pre post, s = pre ++ sub ++ post.

(** Decimal rendering of an [int], as [str(n)] gives it. *)
Definition dec (z : Z) : string := NilZero.string_of_int (Z.to_int z).
Definition dec_nat (n : nat) : string := dec (Z.of_nat n).

(** ** Python objects *)

(** The objects that reach the server: JSON-shaped data.  A [float] is kept
    as the text [str()] gives for it (a relevance score is only printed). *)
#[warning="-register-all"] Inductive value : Type :=
| VNone
| VBool (b : bool)
| VInt (z : Z)
| VFloat (shown : string)
| VStr (s : string)
| VList (l : list value)
| VDict (d : list (string * value)).

(** A [dict] with [str] keys, in insertion order. *)
Definition dict : Type := list (string * value).

Fixpoint dict_lookup (k : string) (d : dict) : option value :=
  match d with
  | [] => None
  | (k', v) :: r => if String.eqb k k' then Some v else dict_lookup k r
  end.

(** [d.get(k, default)] *)
Definition dict_get (d : dict) (k : string) (default : value) : value :=
  match dict_lookup k d with
  | Some v => v
  | None => default
  end.

Definition type_name (v : value) : string :=
  match v with
  | VNone => "NoneType"
  | VBool _ => "bool"
  | VInt _ => "int"
  | VFloat _ => "float"
  | VStr _ => "str"
  | VList _ => "list"
  | VDict _ => "dict"
  end.

(** *** [repr] and [str] *)

Definition hex_digit (n : nat) : string :=
  String (nth n ["0"; "1"; "2"; "3"; "4"; "5"; "6"; "7"; "8"; "9";
                 "a"; "b"; "c"; "d"; "e"; "f"]%char "0"%char) EmptyString.

(** [str.isprintable] on one character below 256. *)
Definition is_printable (c : ascii) : bool :=
  let n := nat_of_ascii c in
  ((32 <=? n) && negb (n =? 127) && negb ((128 <=? n) && (n <=? 160))
   && negb (n =? 173))%nat.

Definition repr_char (quote c : ascii) : string :=
  let n := nat_of_ascii c in
  if Ascii.eqb c quote || (n =? 92)%nat then String (ascii_of_nat 92) (String c EmptyString)
  else if (n =? 9)%nat then String (ascii_of_nat 92) "t"
  else if (n =? 10)%nat then String (ascii_of_nat 92) "n"
  else if (n =? 13)%nat then String (ascii_of_nat 92) "r"
  else if is_printable c then String c EmptyString
  else String (ascii_of_nat 92) ("x" ++ hex_digit (n / 16) ++ hex_digit (n mod 16)).

Fixpoint repr_chars (quote : ascii) (s : string) : string :=
  match s with
  | EmptyString => EmptyString
  | String c r => repr_char quote c ++ repr_chars quote r
  end.

(** [repr(s)] of a [str]: single quotes, unless the text has a single quote
    and no double quote. *)
Definition repr_str (s : string) : string :=
  let quote :=
    if str_mem (ascii_of_nat 39) s && negb (str_mem (ascii_of_nat 34) s)
    then ascii_of_nat 34 else ascii_of_nat 39 in
  String quote (repr_chars quote s) ++ String quote EmptyString.

Fixpoint py_repr (v : value) : string :=
  match v with
  | VNone => "None"
  | VBool true => "True"
  | VBool false => "False"
  | VInt z => dec z
  | VFloat shown => shown
  | VStr s => repr_str s
  | VList l => "[" ++ str_join ", " (map py_repr l) ++ "]"
  | VDict d =>
      "{" ++ str_join ", "
               (map (fun kv => match kv with
                               | (k, x) => repr_str k ++ ": " ++ py_repr x
                               end) d) ++ "}"
  end.

(** [str(v)], which is also what an f-string field [{v}] inserts. *)
Definition py_str (v : value) : string :=
  match v with
  | VStr s => s
  | _ => py_repr v
  end.

(** Truth value of an object, as [if v:] and [and] test it. *)
Definition truthy (v : value) : bool :=
  match v with
  | VNone => false
  | VBool b => b
  | VInt z => negb (z =? 0)%Z
  | VFloat shown => negb (String.eqb shown "0.0" || String.eqb shown "-0.0")
  | VStr s => negb (String.eqb s EmptyString)
  | VList l => match l with [] => false | _ => true end
  | VDict d => match d with [] => false | _ => true end
  end.

(** ** Exceptions *)

(** Everything here derives from [Exception].  [ClientError] stands for
    whatever the Tavily client raises, carrying its [str(e)]. *)
Inductive exn : Type :=
| KeyError (key : value)
| TypeError (msg : string)
| AttributeError (msg : string)
| ValueError (msg : string)
| ClientError (msg : string).

(** [str(e)]; a [KeyError] prints the [repr] of its key. *)
Definition str_exn (e : exn) : string :=
  match e with
  | KeyError key => py_repr key
  | TypeError msg => msg
  | AttributeError msg => msg
  | ValueError msg => msg
  | ClientError msg => msg
  end.

Inductive result (A : Type) : Type :=
| Ok (a : A)
| Raise (e : exn).

Arguments Ok {A} a.
Arguments Raise {A} e.

Definition rbind {A B : Type} (r : result A) (k : A -> result B) : result B :=
  match r with
  | Ok a => k a
  | Raise e => Raise e
  end.

Fixpoint rmap_list {A B : Type} (f : A -> result B) (l : list A) : result (list B) :=
  match l with
  | [] => Ok []
  | a :: r => rbind (f a) (fun b => rbind (rmap_list f r) (fun bs => Ok (b :: bs)))
  end.

(** ** Primitive operations on objects *)

(** [arguments[k]] on a [dict] *)
Definition dict_getitem (d : dict) (k : string) : result value :=
  match dict_lookup k d with
  | Some v => Ok v
  | None => Raise (KeyError (VStr k))
  end.

(** [v[k]] with a [str] subscript *)
Definition getitem (v : value) (k : string) : result value :=
  match v with
  | VDict d => dict_getitem d k
  | VList _ => Raise (TypeError "list indices must be integers or slices, not str")
  | VStr _ => Raise (TypeError "string indices must be integers, not 'str'")
  | _ => Raise (TypeError (sq ++ type_name v ++ "' object is not subscriptable"))
  end.

Definition is_str (k : string) (v : value) : bool :=
  match v with
  | VStr s => String.eqb k s
  | _ => false
  end.

(** [k in v] with a [str] on the left *)
Definition contains (k : string) (v : value) : result bool :=
  match v with
  | VDict d => Ok (match dict_lookup k d with Some _ => true | None => false end)
  | VList l => Ok (existsb (is_str k) l)
  | VStr s => Ok (str_containsb k s)
  | _ => Raise (TypeError ("argument of type '" ++ type_name v ++ "' is not iterable"))
  end.

(** [v.get(k, default)] *)
Definition method_get (v : value) (k : string) (default : value) : result value :=
  match v with
  | VDict d => Ok (dict_get d k default)
  | _ => Raise (AttributeError (sq ++ type_name v ++ "' object has no attribute 'get'"))
  end.

(** [len(v)] *)
Definition py_len (v : value) : result nat :=
  match v with
  | VStr s => Ok (String.length s)
  | VList l => Ok (List.length l)
  | VDict d => Ok (List.length d)
  | _ => Raise (TypeError ("object of type '" ++ type_name v ++ "' has no len()"))
  end.

(** The stop index of a slice [[:n]]: [None], or an [int] ([bool] included). *)
Definition slice_stop (n : value) : result (option Z) :=
  match n with
  | VNone => Ok None
  | VInt z => Ok (Some z)
  | VBool b => Ok (Some (if b then 1 else 0)%Z)
  | _ => Raise (TypeError
           "slice indices must be integers or None or have an __index__ method")
  end.

(** How many items [[:n]] keeps of a sequence of length [len]: a negative
    stop counts from the end. *)
Definition slice_count (len : nat) (stop : option Z) : nat :=
  match stop with
  | None => len
  | Some z => if (z <? 0)%Z then Z.to_nat (Z.of_nat len + z) else Z.to_nat z
  end.

(** [v[:n]] *)
Definition slice_to (v n : value) : result value :=
  match v with
  | VList l =>
      rbind (slice_stop n) (fun stop => Ok (VList (firstn (slice_count (length l) stop) l)))
  | VStr s =>
      rbind (slice_stop n)
            (fun stop => Ok (VStr (str_take (slice_count (String.length s) stop) s)))
  | VDict _ =>
      (* the slice is taken as a key; the message is the one of CPython
         before 3.12, where a slice cannot be hashed *)
      Raise (TypeError "unhashable type: 'slice'")
  | _ => Raise (TypeError (sq ++ type_name v ++ "' object is not subscriptable"))
  end.

Fixpoint chars_of (s : string) : list value :=
  match s with
  | EmptyString => []
  | String c r => VStr (String c EmptyString) :: chars_of r
  end.

(** The items a [for] loop (or [enumerate]) draws from [v]. *)
Definition iterate (v : value) : result (list value) :=
  match v with
  | VList l => Ok l
  | VStr s => Ok (chars_of s)
  | VDict d => Ok (map (fun kv => VStr (fst kv)) d)
  | _ => Raise (TypeError (sq ++ type_name v ++ "' object is not iterable"))
  end.

(** [v += "..."] where [v] came out of a slice: a [str] is extended, a
    [list] takes the three characters as items. *)
Definition iadd_str (v : value) (t : string) : result value :=
  match v with
  | VStr s => Ok (VStr (s ++ t))
  | VList l => Ok (VList (l ++ chars_of t)%list)
  | _ => Raise (TypeError
           ("unsupported operand type(s) for +=: '" ++ type_name v ++ "' and 'str'"))
  end.

(** *** [str.split()] *)

(** [str.isspace] on one character below 256. *)
Definition is_space (c : ascii) : bool :=
  let n := nat_of_ascii c in
  (((9 <=? n) && (n <=? 13)) || ((28 <=? n) && (n <=? 32)) || (n =? 133)
   || (n =? 160))%nat.

(** Splitting on runs of whitespace: [cur] is the word being read; it is
    emitted, when not empty, at the next whitespace or at the end. *)
Fixpoint split_from (cur : string) (s : string) : list string :=
  match s with
  | EmptyString => match cur with EmptyString => [] | _ => [cur] end
  | String c r =>
      if is_space c
      then match cur with
           | EmptyString => split_from EmptyString r
           | _ => cur :: split_from EmptyString r
           end
      else split_from (cur ++ String c EmptyString) r
  end.

Definition str_split (s : string) : list string := split_from EmptyString s.

(** [v.split()] *)
Definition method_split (v : value) : result (list string) :=
  match v with
  | VStr s => Ok (str_split s)
  | _ => Raise (AttributeError (sq ++ type_name v ++ "' object has no attribute 'split'"))
  end.

(** ** The tool registry ([list_tools]) *)

(** One entry of a tool's [inputSchema["properties"]]; the free-text
    descriptions are left out. *)
Record Property : Type := {
  prop_name : string;
  prop_type : string;
  prop_default : option value;
  prop_minimum : option Z;
  prop_maximum : option Z;
  prop_maxItems : option nat
}.

Record Tool : Type := {
  tool_name : string;
  tool_properties : list Property;
  tool_required : list string
}.

Definition plain_property (name type : string) : Property :=
  {| prop_name := name; prop_type := type; prop_default := None;
     prop_minimum := None; prop_maximum := None; prop_maxItems := None |}.

Definition list_tools : list Tool :=
  [ {| tool_name := "tavily_search";
       tool_properties :=
         [ plain_property "query" "string";
           {| prop_name := "max_results"; prop_type := "integer";
              prop_default := Some (VInt 5);
              prop_minimum := Some 1%Z; prop_maximum := Some 20%Z;
              prop_maxItems := None |};
           plain_property "include_domains" "array";
           plain_property "exclude_domains" "array" ];
       tool_required := ["query"] |};
    {| tool_name := "tavily_qna_search";
       tool_properties := [ plain_property "query" "string" ];
       tool_required := ["query"] |};
    {| tool_name := "tavily_get_context";
       tool_properties :=
         [ plain_property "query" "string";
           {| prop_name := "max_tokens"; prop_type := "integer";
              prop_default := Some (VInt 4000);
              prop_minimum := Some 100%Z; prop_maximum := Some 8000%Z;
              prop_maxItems := None |} ];
       tool_required := ["query"] |};
    {| tool_name := "tavily_extract_content";
       tool_properties :=
         [ {| prop_name := "urls"; prop_type := "array";
              prop_default := None;
              prop_minimum := None; prop_maximum := None;
              prop_maxItems := Some 20%nat |};
           {| prop_name := "include_images"; prop_type := "boolean";
              prop_default := Some (VBool false);
              prop_minimum := None; prop_maximum := None;
              prop_maxItems := None |} ];
       tool_required := ["urls"] |} ].

Definition find_tool (name : string) : option Tool :=
  find (fun t => String.eqb name (tool_name t)) list_tools.

(** ** The Tavily client and the handler monad *)

(** The keyword arguments [handle_search] builds in [search_params]:
    the two domain filters are keys that may be missing. *)
Record SearchParams : Type := {
  sp_query : value;
  sp_max_results : value;
  sp_include_domains : option value;
  sp_exclude_domains : option value
}.

(** One invocation of a method of [tavily_client]. *)
Inductive call : Type :=
| CallSearch (params : SearchParams)
| CallQnaSearch (query : value)
| CallGetSearchContext (query max_tokens : value)
| CallExtract (urls include_images : value).

Record TavilyClient : Type := {
  search : SearchParams -> result value;
  qna_search : value -> result value;
  get_search_context : value -> value -> result value;
  extract : value -> value -> result value
}.

Definition client_answer (c : TavilyClient) (k : call) : result value :=
  match k with
  | CallSearch params => search c params
  | CallQnaSearch query => qna_search c query
  | CallGetSearchContext query max_tokens => get_search_context c query max_tokens
  | CallExtract urls include_images => extract c urls include_images
  end.

(** A computation that may raise and that appends to the log of client
    invocations. *)
Definition M (A : Type) : Type := list call -> result A * list call.

Definition ret {A : Type} (a : A) : M A := fun log => (Ok a, log).

Definition raise {A : Type} (e : exn) : M A := fun log => (Raise e, log).

Definition bind {A B : Type} (m : M A) (k : A -> M B) : M B :=
  fun log =>
    match m log with
    | (Ok a, log') => k a log'
    | (Raise e, log') => (Raise e, log')
    end.

(** A primitive that touches no collaborator. *)
Definition lift {A : Type} (r : result A) : M A := fun log => (r, log).

(** [try: m  except Exception as e: handler e] *)
Definition try_except {A : Type} (m : M A) (handler : exn -> M A) : M A :=
  fun log =>
    match m log with
    | (Ok a, log') => (Ok a, log')
    | (Raise e, log') => handler e log'
    end.

Declare Scope py_scope.
Delimit Scope py_scope with py.
Notation "x <- m ;; k" := (bind m (fun x => k))
  (at level 61, m at next level, right associativity) : py_scope.

Record TextContent : Type := {
  type : string;
  text : string
}.

Definition text_content (s : string) : TextContent :=
  {| type := "text"; text := s |}.

Declare Scope res_scope.
Delimit Scope res_scope with res.
Notation "x <- r ;; k" := (rbind r (fun x => k))
  (at level 61, r at next level, right associativity) : res_scope.

(** [enumerate(l, start)] *)
Fixpoint enumerate_from {A : Type} (start : nat) (l : list A) : list (nat * A) :=
  match l with
  | [] => []
  | a :: r => (start, a) :: enumerate_from (S start) r
  end.

(** ** Formatting, free of the client *)

(** The body of the loop of [handle_search]: one [formatted_result]. *)
Definition format_search_result (i : nat) (item : value) : result string :=
  (title <- method_get item "title" (VStr "N/A") ;;
   url <- method_get item "url" (VStr "N/A") ;;
   content <- method_get item "content" (VStr "N/A") ;;
   score <- method_get item "score" (VStr "N/A") ;;
   Ok (nl ++ "**Result " ++ dec_nat i ++ ":**" ++ nl
       ++ "**Title:** " ++ py_str title ++ nl
       ++ "**URL:** " ++ py_str url ++ nl
       ++ "**Content:** " ++ py_str content ++ nl
       ++ "**Score:** " ++ py_str score ++ nl
       ++ "---" ++ nl))%res.

Definition format_enumerated (f : nat -> value -> result string)
    (items : list value) : result (list string) :=
  rmap_list (fun p => f (fst p) (snd p)) (enumerate_from 1 items).

(** The list [results] of [handle_search] once its loop is over. *)
Definition search_results (response max_results : value) : result (list string) :=
  (has <- contains "results" response ;;
   if has : bool
   then all <- getitem response "results" ;;
        shown <- slice_to all max_results ;;
        items <- iterate shown ;;
        format_enumerated format_search_result items
   else Ok [])%res.

Definition search_report (query : value) (results : list string) : string :=
  nl ++ "# Tavily Search Results for: " ++ dq ++ py_str query ++ dq ++ nl
  ++ nl
  ++ "Found " ++ dec_nat (length results) ++ " results:" ++ nl
  ++ nl
  ++ str_concat results ++ nl
  ++ nl
  ++ "**Search completed successfully.**" ++ nl.

Definition qna_report (query answer : value) : string :=
  nl ++ "# Tavily Q&A Result for: " ++ dq ++ py_str query ++ dq ++ nl
  ++ nl
  ++ "**Answer:** " ++ py_str answer ++ nl
  ++ nl
  ++ "**Note:** This answer is generated from web sources and optimized for factual accuracy."
  ++ nl.

(** The f-string of [handle_get_context]; [context.split()] is evaluated
    while the text is being built. *)
Definition context_report (query context max_tokens : value) : result string :=
  (words <- method_split context ;;
   Ok (nl ++ "# Tavily Context for: " ++ dq ++ py_str query ++ dq ++ nl
       ++ nl
       ++ "## Generated Context:" ++ nl
       ++ nl
       ++ py_str context ++ nl
       ++ nl
       ++ "---" ++ nl
       ++ "**Context Length:** ~" ++ dec_nat (length words) ++ " words" ++ nl
       ++ "**Max Tokens Requested:** " ++ py_str max_tokens ++ nl
       ++ nl
       ++ "**Note:** This context is compiled from multiple web sources and formatted for RAG applications."
       ++ nl))%res.

(** The body of the first loop of [handle_extract_content]. *)
Definition format_extract_result (include_images : value) (i : nat)
    (item : value) : result string :=
  (raw <- method_get item "raw_content" (VStr EmptyString) ;;
   content_preview <- slice_to raw (VInt 500) ;;
   raw' <- method_get item "raw_content" (VStr EmptyString) ;;
   n <- py_len raw' ;;
   content_preview <- (if (500 <? n)%nat
                       then iadd_str content_preview "..."
                       else Ok content_preview) ;;
   url <- method_get item "url" (VStr "N/A") ;;
   raw'' <- method_get item "raw_content" (VStr EmptyString) ;;
   full <- py_len raw'' ;;
   let formatted_result :=
     nl ++ "**Extract " ++ dec_nat i ++ ":**" ++ nl
     ++ "**URL:** " ++ py_str url ++ nl
     ++ "**Content Preview:** " ++ py_str content_preview ++ nl
     ++ "**Full Content Length:** " ++ dec_nat full ++ " characters" ++ nl in
   with_images <- (if truthy include_images
                   then images <- method_get item "images" VNone ;;
                        if truthy images
                        then images' <- getitem item "images" ;;
                             count <- py_len images' ;;
                             Ok (formatted_result ++ "**Images Found:** "
                                 ++ dec_nat count ++ " images" ++ nl)
                        else Ok formatted_result
                   else Ok formatted_result) ;;
   Ok (with_images ++ "---" ++ nl))%res.

(** The list [results] of [handle_extract_content]. *)
Definition extract_results (response include_images : value) : result (list string) :=
  (has <- contains "results" response ;;
   if has : bool
   then all <- getitem response "results" ;;
        items <- iterate all ;;
        format_enumerated (format_extract_result include_images) items
   else Ok [])%res.

Definition format_failed (failed : value) : result string :=
  (url <- method_get failed "url" (VStr "Unknown URL") ;;
   error <- method_get failed "error" (VStr "Unknown error") ;;
   Ok ("- " ++ py_str url ++ ": " ++ py_str error))%res.

(** The list [failed_results] of [handle_extract_content]. *)
Definition extract_failed (response : value) : result (list string) :=
  (has <- contains "failed_results" response ;;
   if has : bool
   then failed <- getitem response "failed_results" ;;
        if truthy failed
        then failed' <- getitem response "failed_results" ;;
             items <- iterate failed' ;;
             rmap_list format_failed items
        else Ok []
   else Ok [])%res.

Definition extract_report (results failed_results : list string) : string :=
  nl ++ "# Tavily Content Extraction Results" ++ nl
  ++ nl
  ++ "## Successfully Extracted (" ++ dec_nat (length results) ++ " URLs):" ++ nl
  ++ nl
  ++ (match results with
      | [] => "No content successfully extracted."
      | _ => str_concat results
      end) ++ nl
  ++ nl
  ++ "## Failed Extractions (" ++ dec_nat (length failed_results) ++ " URLs):" ++ nl
  ++ nl
  ++ (match failed_results with
      | [] => "No failed extractions."
      | _ => str_join nl failed_results
      end) ++ nl
  ++ nl
  ++ "**Extraction completed.**" ++ nl.

(** ** The handlers and the dispatch *)

Section Server.

Variable tavily_client : TavilyClient.

(** Calling a method of the client: the call is logged, then answered. *)
Definition invoke (k : call) : M value :=
  fun log => (client_answer tavily_client k, (log ++ [k])%list).

Definition search_params_of (query max_results include_domains exclude_domains : value)
    : SearchParams :=
  {| sp_query := query;
     sp_max_results := max_results;
     sp_include_domains := if truthy include_domains then Some include_domains else None;
     sp_exclude_domains := if truthy exclude_domains then Some exclude_domains else None |}.

Definition handle_search (arguments : dict) : M (list TextContent) :=
  (query <- lift (dict_getitem arguments "query") ;;
   let max_results := dict_get arguments "max_results" (VInt 5) in
   let include_domains := dict_get arguments "include_domains" VNone in
   let exclude_domains := dict_get arguments "exclude_domains" VNone in
   try_except
     (let search_params :=
        search_params_of query max_results include_domains exclude_domains in
      response <- invoke (CallSearch search_params) ;;
      results <- lift (search_results response max_results) ;;
      match results with
      | [] => ret [text_content "No search results found."]
      | _ => ret [text_content (search_report query results)]
      end)
     (fun e => ret [text_content ("Search failed: " ++ str_exn e)]))%py.

Definition handle_qna_search (arguments : dict) : M (list TextContent) :=
  (query <- lift (dict_getitem arguments "query") ;;
   try_except
     (answer <- invoke (CallQnaSearch query) ;;
      ret [text_content (qna_report query answer)])
     (fun e => ret [text_content ("Q&A search failed: " ++ str_exn e)]))%py.

Definition handle_get_context (arguments : dict) : M (list TextContent) :=
  (query <- lift (dict_getitem arguments "query") ;;
   let max_tokens := dict_get arguments "max_tokens" (VInt 4000) in
   try_except
     (context <- invoke (CallGetSearchContext query max_tokens) ;;
      formatted_response <- lift (context_report query context max_tokens) ;;
      ret [text_content formatted_response])
     (fun e => ret [text_content ("Context retrieval failed: " ++ str_exn e)]))%py.

Definition handle_extract_content (arguments : dict) : M (list TextContent) :=
  (urls <- lift (dict_getitem arguments "urls") ;;
   let include_images := dict_get arguments "include_images" (VBool false) in
   _ <- lift (py_len urls) ;;
   try_except
     (response <- invoke (CallExtract urls include_images) ;;
      results <- lift (extract_results response include_images) ;;
      failed_results <- lift (extract_failed response) ;;
      ret [text_content (extract_report results failed_results)])
     (fun e => ret [text_content ("Content extraction failed: " ++ str_exn e)]))%py.

(** The [try] block of [call_tool]. *)
Definition call_tool_body (name : string) (arguments : dict) : M (list TextContent) :=
  if String.eqb name "tavily_search" then handle_search arguments
  else if String.eqb name "tavily_qna_search" then handle_qna_search arguments
  else if String.eqb name "tavily_get_context" then handle_get_context arguments
  else if String.eqb name "tavily_extract_content" then handle_extract_content arguments
  else raise (ValueError ("Unknown tool: " ++ name)).

Definition call_tool (name : string) (arguments : dict) : M (list TextContent) :=
  try_except (call_tool_body name arguments)
             (fun e => ret [text_content ("Error: " ++ str_exn e)]).

End Server.

(** * Notions used in the statements *)

(** How the texts of the [except] clauses begin. *)
Definition failure_prefixes : list string :=
  [ "Error: "; "Search failed: "; "Q&A search failed: ";
    "Context retrieval failed: "; "Content extraction failed: " ].

(** A response written by one of the [except] clauses. *)
Definition is_failure_text (t : string) : bool :=
  existsb (fun p => str_prefixb p t) failure_prefixes.

(** The text [handle_search] answers with, given what the client's [search]
    did: returned a response or raised. *)
Definition search_text (query max_results : value) (answer : result value) : string :=
  match rbind answer (fun response => search_results response max_results) with
  | Ok [] => "No search results found."
  | Ok results => search_report query results
  | Raise e => "Search failed: " ++ str_exn e
  end.

(** Likewise for the other three handlers. *)
Definition qna_text (query : value) (answer : result value) : string :=
  match answer with
  | Ok a => qna_report query a
  | Raise e => "Q&A search failed: " ++ str_exn e
  end.

Definition context_text (query max_tokens : value) (answer : result value) : string :=
  match rbind answer (fun context => context_report query context max_tokens) with
  | Ok t => t
  | Raise e => "Context retrieval failed: " ++ str_exn e
  end.

Definition extract_text (include_images : value) (answer : result value) : string :=
  match rbind answer (fun response =>
          rbind (extract_results response include_images) (fun results =>
          rbind (extract_failed response) (fun failed_results =>
          Ok (extract_report results failed_results)))) with
  | Ok t => t
  | Raise e => "Content extraction failed: " ++ str_exn e
  end.

(** The keyword arguments [handle_search] hands to the client. *)
Definition search_call (arguments : dict) (query : value) : SearchParams :=
  search_params_of query
    (dict_get arguments "max_results" (VInt 5))
    (dict_get arguments "include_domains" VNone)
    (dict_get arguments "exclude_domains" VNone).

(** The entry of a parameter in the schema [list_tools] advertises. *)
Definition declared (tool property : string) : option Property :=
  match find_tool tool with
  | Some t => find (fun p => String.eqb property (prop_name p)) (tool_properties t)
  | None => None
  end.

(** The number of words [split()] returns is the number of places where a
    word starts: a character that is not whitespace, at the beginning of
    the text or right after whitespace. *)
Fixpoint word_starts (after_space : bool) (s : string) : nat :=
  match s with
  | EmptyString => 0
  | String ch r =>
      if is_space ch then word_starts true r
      else (if after_space then 1 else 0) + word_starts false r
  end.

(** No character of the text is whitespace. *)
Fixpoint no_space (s : string) : bool :=
  match s with
  | EmptyString => true
  | String ch r => negb (is_space ch) && no_space r
  end.

(** What a field of a record reads in a block: its [str], or the default
    when the record has no such key. *)
Definition field_text (d : dict) (k default : string) : string :=
  py_str (dict_get d k (VStr default)).

(** The block of the [i]-th record of a search. *)
Definition record_block (i : nat) (d : dict) : string :=
  nl ++ "**Result " ++ dec_nat i ++ ":**" ++ nl
  ++ "**Title:** " ++ field_text d "title" "N/A" ++ nl
  ++ "**URL:** " ++ field_text d "url" "N/A" ++ nl
  ++ "**Content:** " ++ field_text d "content" "N/A" ++ nl
  ++ "**Score:** " ++ field_text d "score" "N/A" ++ nl
  ++ "---" ++ nl.

Definition numbered_from (start : nat) (block : nat -> dict -> string)
    (l : list dict) : list string :=
  map (fun p => block (fst p) (snd p)) (enumerate_from start l).

Definition numbered_blocks (block : nat -> dict -> string) (l : list dict)
    : list string :=
  numbered_from 1 block l.

(** The text of [raw_content], empty when the key is missing. *)
Definition raw_text (d : dict) : string :=
  match dict_lookup "raw_content" d with
  | Some (VStr s) => s
  | _ => EmptyString
  end.

Definition images_of (d : dict) : list value :=
  match dict_lookup "images" d with
  | Some (VList l) => l
  | _ => []
  end.

(** An extracted page as the client documents it: [raw_content], when
    there, is a text and [images], when there, is a list. *)
Definition page_shape (d : dict) : Prop :=
  (dict_lookup "raw_content" d = None
   \/ exists s, dict_lookup "raw_content" d = Some (VStr s))
  /\ (dict_lookup "images" d = None
      \/ exists l, dict_lookup "images" d = Some (VList l)).

(** The first 500 characters, and the marker when something was cut. *)
Definition content_preview (s : string) : string :=
  if (500 <? String.length s)%nat
  then str_take 500 s ++ "..."
  else str_take 500 s.

Definition images_line (include_images : value) (d : dict) : string :=
  if truthy include_images && negb (Nat.eqb (length (images_of d)) 0)
  then "**Images Found:** " ++ dec_nat (length (images_of d)) ++ " images" ++ nl
  else EmptyString.

(** The block of the [i]-th extracted page. *)
Definition page_block (include_images : value) (i : nat) (d : dict) : string :=
  nl ++ "**Extract " ++ dec_nat i ++ ":**" ++ nl
  ++ "**URL:** " ++ field_text d "url" "N/A" ++ nl
  ++ "**Content Preview:** " ++ content_preview (raw_text d) ++ nl
  ++ "**Full Content Length:** " ++ dec_nat (String.length (raw_text d))
  ++ " characters" ++ nl
  ++ images_line include_images d
  ++ "---" ++ nl.

(** The line of one failed URL. *)
Definition failed_line (d : dict) : string :=
  "- " ++ field_text d "url" "Unknown URL" ++ ": "
  ++ field_text d "error" "Unknown error".

(** The list under key [k] of the client's answer: missing, or a list of
    records. *)
Definition records_under (k : string) (response : dict) (records : list dict) : Prop :=
  (dict_lookup k response = None /\ records = [])
  \/ dict_lookup k response = Some (VList (map VDict records)).


(** * Sample clients and inputs *)

Definition idle_client : TavilyClient :=
  {| search := fun _ => Ok (VDict []);
     qna_search := fun _ => Ok (VStr EmptyString);
     get_search_context := fun _ _ => Ok (VStr EmptyString);
     extract := fun _ _ => Ok (VDict []) |}.

(** A client whose search finds nothing and whose extraction returns an
    empty answer. *)
Definition quiet_client : TavilyClient :=
  {| search := fun _ => Ok (VDict [("results", VList [])]);
     qna_search := fun _ => Ok (VStr "Paris");
     get_search_context := fun _ _ => Ok (VStr EmptyString);
     extract := fun _ _ => Ok (VDict [("results", VList []); ("failed_results", VList [])]) |}.

(** [n] distinct URLs. *)
Definition sample_urls (n : nat) : list value :=
  map (fun i => VStr ("https://example.org/" ++ dec_nat i)) (seq 1 n).

Definition ten_words : string :=
  "alpha beta gamma delta epsilon zeta eta theta iota kappa".

Definition context_client : TavilyClient :=
  {| search := fun _ => Ok (VDict []);
     qna_search := fun _ => Ok (VStr EmptyString);
     get_search_context := fun _ _ => Ok (VStr ten_words);
     extract := fun _ _ => Ok (VDict []) |}.

Definition sample_fields (title : string) : dict :=
  [("title", VStr title); ("url", VStr ("https://example.org/" ++ title));
   ("content", VStr "text"); ("score", VFloat "0.9")].

Definition sample_record (title : string) : value := VDict (sample_fields title).

Definition three_records_client : TavilyClient :=
  {| search := fun _ =>
       Ok (VDict [("results",
                   VList [sample_record "a"; sample_record "b"; sample_record "c"])]);
     qna_search := fun _ => Ok (VStr EmptyString);
     get_search_context := fun _ _ => Ok (VStr EmptyString);
     extract := fun _ _ => Ok (VDict []) |}.

Fixpoint repeat_text (n : nat) (s : string) : string :=
  match n with
  | O => EmptyString
  | S k => s ++ repeat_text k s
  end.

Definition short_page : dict :=
  [("url", VStr "https://example.org/a"); ("raw_content", VStr "short text");
   ("images", VList [VStr "https://example.org/a.png"])].

(** A page of 600 characters, without images. *)
Definition long_page : dict :=
  [("url", VStr "https://example.org/b");
   ("raw_content", VStr (repeat_text 60 "0123456789"))].

Definition failed_page : dict :=
  [("url", VStr "https://example.org/c"); ("error", VStr "timeout")].

Definition extraction_answer : dict :=
  [("results", VList [VDict short_page; VDict long_page]);
   ("failed_results", VList [VDict failed_page])].

Definition extraction_client : TavilyClient :=
  {| search := fun _ => Ok (VDict []);
     qna_search := fun _ => Ok (VStr EmptyString);
     get_search_context := fun _ _ => Ok (VStr EmptyString);
     extract := fun _ _ => Ok (VDict extraction_answer) |}.

Definition extraction_arguments : dict :=
  [("urls", VList (sample_urls 3)); ("include_images", VBool true)].

(** * The rest of the Tavily server *)

(** The tool whose handler makes a given call to the client. *)
Definition call_tool_name (k : call) : string :=
  match k with
  | CallSearch _ => "tavily_search"
  | CallQnaSearch _ => "tavily_qna_search"
  | CallGetSearchContext _ _ => "tavily_get_context"
  | CallExtract _ _ => "tavily_extract_content"
  end.

(** The keyword argument [p] of a call, if the call carries it. *)
Definition call_param (k : call) (p : string) : option value :=
  match k with
  | CallSearch params =>
      if String.eqb p "query" then Some (sp_query params)
      else if String.eqb p "max_results" then Some (sp_max_results params)
      else if String.eqb p "include_domains" then sp_include_domains params
      else if String.eqb p "exclude_domains" then sp_exclude_domains params
      else None
  | CallQnaSearch query =>
      if String.eqb p "query" then Some query else None
  | CallGetSearchContext query max_tokens =>
      if String.eqb p "query" then Some query
      else if String.eqb p "max_tokens" then Some max_tokens
      else None
  | CallExtract urls include_images =>
      if String.eqb p "urls" then Some urls
      else if String.eqb p "include_images" then Some include_images
      else None
  end.

(** The two parameters [handle_search] forwards only when they are true. *)
Definition domain_filter (p : string) : bool :=
  String.eqb p "include_domains" || String.eqb p "exclude_domains".

(** What a handler hands to the client for a declared parameter, read off
    the arguments and the schema. *)
Definition forwarded (arguments : dict) (p : Property) : option value :=
  match dict_lookup (prop_name p) arguments with
  | Some v => if domain_filter (prop_name p) && negb (truthy v) then None else Some v
  | None => prop_default p
  end.

(** The objects [len] accepts. *)
Definition sized (v : value) : bool :=
  match v with
  | VStr _ | VList _ | VDict _ => true
  | _ => false
  end.

Definition is_dict (v : value) : bool :=
  match v with
  | VDict _ => true
  | _ => false
  end.

Definition is_text (v : value) : bool :=
  match v with
  | VStr _ => true
  | _ => false
  end.

(** The connection test at the start of [main]: one question to the
    client, whose outcome is only logged. *)
Definition main_probe (tavily_client : TavilyClient) : M unit :=
  try_except
    (bind (invoke tavily_client (CallQnaSearch (VStr "test"))) (fun _ => ret tt))
    (fun _ => ret tt).

(** * The calculator service ([calculator_server/main.py]) *)

(** [str.lower] on one character below 256: the letters A-Z and the
    capital letters of Latin-1. *)
Definition lower_char (c : ascii) : ascii :=
  let n := nat_of_ascii c in
  if (((65 <=? n) && (n <=? 90))
      || ((192 <=? n) && (n <=? 222) && negb (n =? 215)))%nat
  then ascii_of_nat (n + 32)
  else c.

Fixpoint str_lower (s : string) : string :=
  match s with
  | EmptyString => EmptyString
  | String c r => String (lower_char c) (str_lower r)
  end.

Module Calculator.

(** A [float] is an IEEE 754 binary64 number, as in CPython. *)
Record CalculationRequest : Type := {
  operation : string;
  a : float;
  b : float
}.

Record CalculationResponse : Type := {
  result : float;
  detail : string
}.

(** An endpoint returns its response model or raises [HTTPException]. *)
Inductive outcome (A : Type) : Type :=
| Respond (response : A)
| HTTPException (status_code : Z) (reason : string).

Arguments Respond {A} response.
Arguments HTTPException {A} status_code reason.

Definition supported_operations : list string :=
  ["add"; "subtract"; "multiply"; "divide"].

Section Calculate.

(** The text an f-string inserts for a [float]. *)
Variable float_str : float -> string.

Definition calculate (request : CalculationRequest)
    : outcome CalculationResponse :=
  let op := str_lower (operation request) in
  let a := a request in
  let b := b request in
  let respond (result : float) :=
    Respond {| result := result;
               detail := "Successfully performed " ++ op ++ " on "
                         ++ float_str a ++ " and " ++ float_str b ++ "." |} in
  if String.eqb op "add" then respond (a + b)%float
  else if String.eqb op "subtract" then respond (a - b)%float
  else if String.eqb op "multiply" then respond (a * b)%float
  else if String.eqb op "divide" then
    if PrimFloat.eqb b 0%float
    then HTTPException 400 "Division by zero is not allowed."
    else respond (a / b)%float
  else HTTPException 400
         ("Invalid operation: " ++ operation request
          ++ ". Supported operations are add, subtract, multiply, divide.").

End Calculate.

End Calculator.

(** * The weather service ([weather_server/main.py]) *)

Module Weather.

Record WeatherRequest : Type := {
  request_city : string
}.

Record WeatherResponse : Type := {
  city : string;
  temperature : float;
  description : string;
  humidity : Z
}.

(** One value of [STUB_WEATHER_DATA]. *)
Record StubWeather : Type := {
  stub_temperature : float;
  stub_description : string;
  stub_humidity : Z
}.

#[warning="-inexact-float"] Definition STUB_WEATHER_DATA : list (string * StubWeather) :=
  [ ("New York", {| stub_temperature := 15.5%float;
                    stub_description := "Cloudy with a chance of rain";
                    stub_humidity := 70 |});
    ("London", {| stub_temperature := 12.0%float;
                  stub_description := "Light drizzle and overcast";
                  stub_humidity := 85 |});
    ("Tokyo", {| stub_temperature := 22.3%float;
                 stub_description := "Sunny and pleasant";
                 stub_humidity := 60 |});
    ("Sydney", {| stub_temperature := 25.0%float;
                  stub_description := "Clear skies and warm";
                  stub_humidity := 55 |}) ].

Fixpoint stub_lookup (city : string) (table : list (string * StubWeather))
    : option StubWeather :=
  match table with
  | [] => None
  | (name, weather) :: rest =>
      if String.eqb city name then Some weather else stub_lookup city rest
  end.

Section GetWeather.

(** The [random] module: a generator state, the two draws the endpoint
    makes, and [round(x, 1)]. *)
Variable generator : Type.
Variable uniform : float -> float -> generator -> float * generator.
Variable randint : Z -> Z -> generator -> Z * generator.
Variable round1 : float -> float.

Definition get_weather (request : WeatherRequest) (g : generator)
    : WeatherResponse * generator :=
  let city := request_city request in
  match stub_lookup city STUB_WEATHER_DATA with
  | Some weather =>
      ({| city := city;
          temperature := stub_temperature weather;
          description := stub_description weather;
          humidity := stub_humidity weather |}, g)
  | None =>
      let (t, g1) := uniform 5.0%float 35.0%float g in
      let (h, g2) := randint 40 90 g1 in
      ({| city := city;
          temperature := round1 t;
          description := "Random weather condition";
          humidity := h |}, g2)
  end.

End GetWeather.

End Weather.

(** * More sample inputs *)

Definition failing_client (message : string) : TavilyClient :=
  {| search := fun _ => Raise (ClientError message);
     qna_search := fun _ => Raise (ClientError message);
     get_search_context := fun _ _ => Raise (ClientError message);
     extract := fun _ _ => Raise (ClientError message) |}.

(** A client whose search returns [items] as they are. *)
Definition listing_client (items : list value) : TavilyClient :=
  {| search := fun _ => Ok (VDict [("results", VList items)]);
     qna_search := fun _ => Ok (VInt 42);
     get_search_context := fun _ _ => Ok (VList [VStr "not"; VStr "a text"]);
     extract := fun _ _ => Ok (VDict [("results", VList items)]) |}.

(** * The validation in front of the handlers *)

(** [call_tool] is registered with [@server.call_tool()] (main.py:151), so a
    request reaches it through the server's dispatch, which checks the
    arguments against the schema [list_tools] declares for the tool.  That
    code is not in the repository's sources; it is modelled here from
    sections 4.2 and 4.5 of the specification. *)

(** Modelled from the spec: the kinds of validation failure of section 7
    ([ValidationFailure]), with the payloads section 4.2 gives them. *)
Inductive ValidationError : Type :=
| MissingRequired (paramName : string)
| TypeMismatch (paramName expectedType : string)
| OutOfRange (paramName : string) (bound : Z)
| NotInEnum (paramName : string) (allowed : list value)
| TooManyItems (paramName : string) (max : nat).

(** Modelled from the spec: step 3 of the Validator of section 4.2, the
    runtime type of a value against the declared [type], one of string,
    integer, boolean and array of strings. *)
Definition has_type (type : string) (v : value) : bool :=
  if String.eqb type "string" then is_text v
  else if String.eqb type "integer" then
    match v with VInt _ => true | _ => false end
  else if String.eqb type "boolean" then
    match v with VBool _ => true | _ => false end
  else if String.eqb type "array" then
    match v with VList l => forallb is_text l | _ => false end
  else false.

(** Modelled from the spec: step 4 of the Validator of section 4.2, the
    inclusive bounds of a numeric parameter; the result is the bound that
    is violated. *)
Definition range_violation (p : Property) (v : value) : option Z :=
  match v with
  | VInt z =>
      let above :=
        match prop_maximum p with
        | Some hi => if (hi <? z)%Z then Some hi else None
        | None => None
        end in
      match prop_minimum p with
      | Some lo => if (z <? lo)%Z then Some lo else above
      | None => above
      end
  | _ => None
  end.

(** Modelled from the spec: step 6 of the Validator of section 4.2, the
    length of an array against [maxItems]. *)
Definition too_many_items (p : Property) (v : value) : option nat :=
  match v, prop_maxItems p with
  | VList l, Some limit => if (limit <? length l)%nat then Some limit else None
  | _, _ => None
  end.

(** Modelled from the spec: steps 1 to 6 of the Validator of section 4.2
    for one parameter.  The result is a failure, or the value that enters
    the normalized arguments: the caller's, the default, or none.  No
    parameter of [list_tools] declares an enumeration, so step 5 has
    nothing to check. *)
Definition check_parameter (required : bool) (p : Property) (rawArguments : dict)
    : ValidationError + option value :=
  match dict_lookup (prop_name p) rawArguments with
  | None =>
      if required then inl (MissingRequired (prop_name p))
      else inr (prop_default p)
  | Some v =>
      if negb (has_type (prop_type p) v)
      then inl (TypeMismatch (prop_name p) (prop_type p))
      else match range_violation p v with
           | Some bound => inl (OutOfRange (prop_name p) bound)
           | None =>
               match too_many_items p v with
               | Some limit => inl (TooManyItems (prop_name p) limit)
               | None => inr (Some v)
               end
           end
  end.

(** Modelled from the spec: the Validator of section 4.2 over the
    parameters of a schema, in declaration order, stopping at the first
    failure; keys that the schema does not declare are ignored. *)
Fixpoint validate_parameters (required : list string) (properties : list Property)
    (rawArguments : dict) : ValidationError + dict :=
  match properties with
  | [] => inr []
  | p :: rest =>
      match check_parameter (existsb (String.eqb (prop_name p)) required) p
                            rawArguments with
      | inl e => inl e
      | inr entry =>
          match validate_parameters required rest rawArguments with
          | inl e => inl e
          | inr normalized =>
              inr (match entry with
                   | Some v => (prop_name p, v) :: normalized
                   | None => normalized
                   end)
          end
      end
  end.

(** Modelled from the spec: [validate(descriptor, rawArguments)] of
    section 4.2. *)
Definition validate (descriptor : Tool) (rawArguments : dict)
    : ValidationError + dict :=
  validate_parameters (tool_required descriptor) (tool_properties descriptor)
                      rawArguments.

Section Dispatcher.

Variable tavily_client : TavilyClient.

(** The text that renders a validation failure; the specification fixes
    only that it carries the parameter name and the reason. *)
Variable render_error : ValidationError -> string.

(** Modelled from the spec: steps 1 and 2 of the Dispatcher of section 4.5,
    in front of [call_tool]: the name is looked up in the registry, the
    arguments are validated, and a failure is answered with its rendering
    without going further. *)
Definition dispatch (name : string) (rawArguments : dict) : M (list TextContent) :=
  match find_tool name with
  | None => call_tool tavily_client name rawArguments
  | Some descriptor =>
      match validate descriptor rawArguments with
      | inl e => ret [text_content (render_error e)]
      | inr normalized => call_tool tavily_client name normalized
      end
  end.

End Dispatcher.

(** [n] texts of URLs, and a rendering of validation failures. *)
Definition url_texts (n : nat) : list string :=
  map (fun i => "https://example.org/" ++ dec_nat i) (seq 1 n).

Definition sample_rendering (e : ValidationError) : string :=
  match e with
  | MissingRequired p => "Invalid arguments: " ++ p ++ " is required"
  | TypeMismatch p type => "Invalid arguments: " ++ p ++ " must be of type " ++ type
  | OutOfRange p bound => "Invalid arguments: " ++ p ++ " is out of range, bound " ++ dec bound
  | NotInEnum p _ => "Invalid arguments: " ++ p ++ " is not an allowed value"
  | TooManyItems p limit =>
      "Invalid arguments: " ++ p ++ " has more than " ++ dec_nat limit ++ " items"
  end.

(** * Properties *)

(** ** The primitives on known values *)

Example repr_of_nested_list :
  py_repr (VList [VStr "it's"; VInt (-3); VBool true; VDict [("a", VNone)]])
  = "[" ++ dq ++ "it's" ++ dq ++ ", -3, True, {'a': None}]".
Proof. reflexivity. Qed.

Example str_of_key_error : str_exn (KeyError (VStr "query")) = sq ++ "query" ++ sq.
Proof. reflexivity. Qed.

Example split_ignores_runs_of_whitespace :
  str_split ("  one two" ++ nl ++ nl ++ "three  ") = ["one"; "two"; "three"].
Proof. reflexivity. Qed.

Example slice_with_negative_stop :
  slice_to (VList [VInt 1; VInt 2; VInt 3]) (VInt (-1)) = Ok (VList [VInt 1; VInt 2])
  /\ slice_to (VList [VInt 1; VInt 2; VInt 3]) (VInt (-7)) = Ok (VList [])
  /\ slice_to (VList [VInt 1; VInt 2; VInt 3]) (VInt 7)
     = Ok (VList [VInt 1; VInt 2; VInt 3])
  /\ slice_to (VStr "abcdef") (VInt 2) = Ok (VStr "ab").
Proof. repeat split. Qed.

Example qna_answer_with_note :
  call_tool quiet_client "tavily_qna_search" [("query", VStr "capital of France")] []
  = (Ok [text_content
           (nl ++ "# Tavily Q&A Result for: " ++ dq ++ "capital of France" ++ dq ++ nl
            ++ nl
            ++ "**Answer:** Paris" ++ nl
            ++ nl
            ++ "**Note:** This answer is generated from web sources and optimized for factual accuracy."
            ++ nl)],
     [CallQnaSearch (VStr "capital of France")]).
Proof. reflexivity. Qed.

(** ** Texts *)

Lemma str_app_assoc (a b c : string) : (a ++ b) ++ c = a ++ (b ++ c).
Proof.
  induction a as [|x a IH]; simpl; [reflexivity | now rewrite IH].
Qed.

Lemma str_app_nil_r (a : string) : a ++ EmptyString = a.
Proof.
  induction a as [|x a IH]; simpl; [reflexivity | now rewrite IH].
Qed.

Lemma occurs_in_refl (s : string) : occurs_in s s.
Proof.
  exists EmptyString, EmptyString. simpl. now rewrite str_app_nil_r.
Qed.

Lemma occurs_in_app_l (sub a b : string) : occurs_in sub a -> occurs_in sub (a ++ b).
Proof.
  intros (pre & post & ->). exists pre, (post ++ b).
  now rewrite !str_app_assoc.
Qed.

Lemma occurs_in_app_r (sub a b : string) : occurs_in sub b -> occurs_in sub (a ++ b).
Proof.
  intros (pre & post & ->). exists (a ++ pre), post.
  now rewrite !str_app_assoc.
Qed.

Lemma occurs_in_trans (a b c : string) : occurs_in a b -> occurs_in b c -> occurs_in a c.
Proof.
  intros Hab (pre & post & ->).
  apply occurs_in_app_r, occurs_in_app_l, Hab.
Qed.

Lemma occurs_in_prefix (sub rest : string) : occurs_in sub (sub ++ rest).
Proof. apply occurs_in_app_l, occurs_in_refl. Qed.

Lemma occurs_in_prefix2 (a b rest : string) : occurs_in (a ++ b) (a ++ b ++ rest).
Proof. rewrite <- str_app_assoc. apply occurs_in_prefix. Qed.

Lemma occurs_in_prefix3 (a b c rest : string) :
  occurs_in (a ++ b ++ c) (a ++ b ++ c ++ rest).
Proof. rewrite <- !str_app_assoc. apply occurs_in_prefix. Qed.

(** Walks down a text written as [a ++ b ++ ...] until the wanted part
    starts. *)
Ltac find_occurrence :=
  first [ apply occurs_in_refl
        | apply occurs_in_prefix
        | apply occurs_in_prefix2
        | apply occurs_in_prefix3
        | apply occurs_in_app_r; find_occurrence ].

Lemma occurs_in_concat (b : string) (l : list string) :
  In b l -> occurs_in b (str_concat l).
Proof.
  induction l as [|x l IH]; intros Hin; [destruct Hin|].
  cbn [str_concat]. destruct Hin as [-> | Hin].
  - apply occurs_in_prefix.
  - apply occurs_in_app_r, IH, Hin.
Qed.

Lemma occurs_in_join (sep b : string) (l : list string) :
  In b l -> occurs_in b (str_join sep l).
Proof.
  induction l as [|x l IH]; intros Hin; [destruct Hin|].
  destruct l as [|y l].
  - destruct Hin as [-> | []]. apply occurs_in_refl.
  - change (str_join sep (x :: y :: l)) with (x ++ sep ++ str_join sep (y :: l)).
    destruct Hin as [-> | Hin].
    + apply occurs_in_prefix.
    + do 2 apply occurs_in_app_r. apply IH, Hin.
Qed.

Lemma str_prefixb_app (p s : string) : str_prefixb p (p ++ s) = true.
Proof.
  induction p as [|x p IH]; simpl; [reflexivity|].
  now rewrite Ascii.eqb_refl, IH.
Qed.

Lemma str_take_length (n : nat) (s : string) : String.length (str_take n s) <= n.
Proof.
  revert s. induction n as [|n IH]; intros s; simpl; [lia|].
  destruct s as [|x s]; simpl; [lia|]. specialize (IH s). lia.
Qed.

Lemma str_take_exact (n : nat) (s : string) :
  n <= String.length s -> String.length (str_take n s) = n.
Proof.
  revert s. induction n as [|n IH]; intros s H; [reflexivity|].
  destruct s as [|x s]; simpl in *; [lia|]. rewrite IH; lia.
Qed.

Lemma str_take_all (n : nat) (s : string) : String.length s <= n -> str_take n s = s.
Proof.
  revert s. induction n as [|n IH]; intros [|x s]; simpl; intros H;
    try reflexivity; try lia.
  rewrite IH; [reflexivity | lia].
Qed.

Lemma str_take_prefix (n : nat) (s : string) : exists rest, s = str_take n s ++ rest.
Proof.
  revert s. induction n as [|n IH]; intros s.
  - exists s. reflexivity.
  - destruct s as [|x s]; simpl.
    + exists EmptyString. reflexivity.
    + destruct (IH s) as [rest Hrest]. exists rest. now rewrite <- Hrest.
Qed.

(** ** The texts a failure can produce *)

Lemma failure_text_of_prefix (p msg : string) :
  In p failure_prefixes -> is_failure_text (p ++ msg) = true.
Proof.
  intros Hin. unfold is_failure_text. apply existsb_exists.
  exists p. split; [exact Hin | apply str_prefixb_app].
Qed.

(** ** Running the handlers *)

(** What each handler answers once its required argument is there: the
    client is invoked once, and its answer decides the text. *)

Section Runs.

Variable c : TavilyClient.
Variable arguments : dict.
Variable log : list call.

Lemma handle_search_run (query : value) :
  dict_lookup "query" arguments = Some query ->
  handle_search c arguments log =
  (Ok [text_content (search_text query (dict_get arguments "max_results" (VInt 5))
                                 (search c (search_call arguments query)))],
   (log ++ [CallSearch (search_call arguments query)])%list).
Proof.
  intros Hq.
  unfold handle_search, search_text, search_call, bind, lift, try_except, invoke,
    dict_getitem.
  rewrite Hq. cbn [client_answer].
  destruct (search c _) as [response|e]; cbn [rbind]; [|reflexivity].
  destruct (search_results _ _) as [[|r rs]|e]; reflexivity.
Qed.

Lemma handle_qna_search_run (query : value) :
  dict_lookup "query" arguments = Some query ->
  handle_qna_search c arguments log =
  (Ok [text_content (qna_text query (qna_search c query))],
   (log ++ [CallQnaSearch query])%list).
Proof.
  intros Hq.
  unfold handle_qna_search, qna_text, bind, lift, try_except, invoke, dict_getitem.
  rewrite Hq. cbn [client_answer].
  destruct (qna_search c _) as [answer|e]; reflexivity.
Qed.

Lemma handle_get_context_run (query : value) :
  dict_lookup "query" arguments = Some query ->
  let max_tokens := dict_get arguments "max_tokens" (VInt 4000) in
  handle_get_context c arguments log =
  (Ok [text_content (context_text query max_tokens
                                  (get_search_context c query max_tokens))],
   (log ++ [CallGetSearchContext query max_tokens])%list).
Proof.
  intros Hq max_tokens.
  unfold handle_get_context, context_text, bind, lift, try_except, invoke,
    dict_getitem.
  rewrite Hq. cbn [client_answer]. fold max_tokens.
  destruct (get_search_context c _ _) as [context|e]; cbn [rbind]; [|reflexivity].
  destruct (context_report _ _ _) as [t|e]; reflexivity.
Qed.

Lemma handle_extract_content_run (urls : value) (n : nat) :
  dict_lookup "urls" arguments = Some urls ->
  py_len urls = Ok n ->
  let include_images := dict_get arguments "include_images" (VBool false) in
  handle_extract_content c arguments log =
  (Ok [text_content (extract_text include_images (extract c urls include_images))],
   (log ++ [CallExtract urls include_images])%list).
Proof.
  intros Hu Hn include_images.
  unfold handle_extract_content, extract_text, bind, lift, try_except, invoke,
    dict_getitem.
  rewrite Hu, Hn. cbn [client_answer]. fold include_images.
  destruct (extract c _ _) as [response|e]; cbn [rbind]; [|reflexivity].
  destruct (extract_results _ _) as [results|e]; cbn [rbind]; [|reflexivity].
  destruct (extract_failed _) as [failed|e]; reflexivity.
Qed.

(** A handler whose required argument is missing raises [KeyError] before
    it reaches the client. *)
Lemma handler_missing_key (name key : string) :
  In (name, key) [ ("tavily_search", "query"); ("tavily_qna_search", "query");
                   ("tavily_get_context", "query"); ("tavily_extract_content", "urls") ] ->
  dict_lookup key arguments = None ->
  call_tool_body c name arguments log = (Raise (KeyError (VStr key)), log).
Proof.
  intros Hin Hk. simpl in Hin.
  destruct Hin as [E|[E|[E|[E|[]]]]]; inversion E; subst; clear E;
    unfold call_tool_body; cbn [String.eqb Ascii.eqb Bool.eqb];
    unfold handle_search, handle_qna_search, handle_get_context,
      handle_extract_content, bind, lift, dict_getitem;
    rewrite Hk; reflexivity.
Qed.

(** Every handler answers with one text or raises; it raises only before
    reaching the client, and when the client raises the text is the one of
    the handler's [except] clause. *)
Lemma call_tool_body_answers (name : string) :
  exists log',
    (exists t,
        call_tool_body c name arguments log = (Ok [text_content t], log')
        /\ forall k e, log' = (log ++ [k])%list -> client_answer c k = Raise e ->
                       exists prefix, In prefix failure_prefixes
                                      /\ t = prefix ++ str_exn e)
    \/ (exists e, call_tool_body c name arguments log = (Raise e, log')
                  /\ log' = log).
Proof.
  unfold call_tool_body.
  destruct (String.eqb name "tavily_search").
  { destruct (dict_lookup "query" arguments) as [query|] eqn:Hq.
    - rewrite (handle_search_run query Hq). eexists. left. eexists.
      split; [reflexivity|]. intros k e Hk Hans.
      apply app_inj_tail in Hk as [_ <-]. cbn [client_answer] in Hans.
      unfold search_text. rewrite Hans. exists "Search failed: ".
      split; [simpl; auto | reflexivity].
    - unfold handle_search, bind, lift, dict_getitem. rewrite Hq. eauto. }
  destruct (String.eqb name "tavily_qna_search").
  { destruct (dict_lookup "query" arguments) as [query|] eqn:Hq.
    - rewrite (handle_qna_search_run query Hq). eexists. left. eexists.
      split; [reflexivity|]. intros k e Hk Hans.
      apply app_inj_tail in Hk as [_ <-]. cbn [client_answer] in Hans.
      unfold qna_text. rewrite Hans. exists "Q&A search failed: ".
      split; [simpl; auto | reflexivity].
    - unfold handle_qna_search, bind, lift, dict_getitem. rewrite Hq. eauto. }
  destruct (String.eqb name "tavily_get_context").
  { destruct (dict_lookup "query" arguments) as [query|] eqn:Hq.
    - rewrite (handle_get_context_run query Hq). eexists. left. eexists.
      split; [reflexivity|]. intros k e Hk Hans.
      apply app_inj_tail in Hk as [_ <-]. cbn [client_answer] in Hans.
      unfold context_text. rewrite Hans. exists "Context retrieval failed: ".
      split; [simpl; auto | reflexivity].
    - unfold handle_get_context, bind, lift, dict_getitem. rewrite Hq. eauto. }
  destruct (String.eqb name "tavily_extract_content").
  { destruct (dict_lookup "urls" arguments) as [urls|] eqn:Hu.
    - destruct (py_len urls) as [n|e] eqn:Hn.
      + rewrite (handle_extract_content_run urls n Hu Hn). eexists. left. eexists.
        split; [reflexivity|]. intros k e Hk Hans.
        apply app_inj_tail in Hk as [_ <-]. cbn [client_answer] in Hans.
        unfold extract_text. rewrite Hans. exists "Content extraction failed: ".
        split; [simpl; auto 6 | reflexivity].
      + unfold handle_extract_content, bind, lift, dict_getitem.
        rewrite Hu, Hn. eauto.
    - unfold handle_extract_content, bind, lift, dict_getitem. rewrite Hu. eauto. }
  unfold raise. eauto.
Qed.

End Runs.

(** ** Dispatch *)

(** C1. For every tool name and every argument mapping, [call_tool] returns
    one text response and raises nothing.  When the dispatched handler (or
    the lookup of the name) raises, the exception is caught and the
    response is ["Error: "] followed by [str(e)]; when it does not, the
    response is the handler's own, and if the client was invoked and raised,
    that text is the handler's failure text followed by [str(e)]. *)
Theorem call_tool_always_responds :
  forall (c : TavilyClient) (name : string) (arguments : dict) (log : list call),
  exists (t : string) (log' : list call),
    call_tool c name arguments log = (Ok [text_content t], log')
    /\ (forall e l, call_tool_body c name arguments log = (Raise e, l) ->
        t = "Error: " ++ str_exn e /\ is_failure_text t = true /\ log' = l)
    /\ (forall r l, call_tool_body c name arguments log = (Ok r, l) ->
        r = [text_content t] /\ log' = l)
    /\ (forall k e, log' = (log ++ [k])%list -> client_answer c k = Raise e ->
        is_failure_text t = true
        /\ exists prefix, In prefix failure_prefixes /\ t = prefix ++ str_exn e).
Proof.
  intros c name arguments log.
  destruct (call_tool_body_answers c arguments log name)
    as [log' [(t & H & Hclient) | (e & H & ->)]].
  - exists t, log'. unfold call_tool, try_except. rewrite H.
    split; [reflexivity|]. split; [|split].
    + intros x l Hx. inversion Hx.
    + intros x l Hx. inversion Hx; subst; auto.
    + intros k e Hk Hans. destruct (Hclient k e Hk Hans) as (prefix & Hin & ->).
      split; [apply failure_text_of_prefix, Hin | eauto].
  - exists ("Error: " ++ str_exn e), log. unfold call_tool, try_except. rewrite H.
    split; [reflexivity|]. split; [|split].
    + intros x l Hx. inversion Hx; subst.
      split; [reflexivity|]. split; [|reflexivity].
      apply failure_text_of_prefix. simpl. auto.
    + intros x l Hx. inversion Hx.
    + intros k e' Hk _. exfalso.
      apply (f_equal (@length call)) in Hk. rewrite length_app in Hk.
      simpl in Hk. lia.
Qed.

(** C2. A name that is not one of the registered tools is answered with the
    text ["Error: Unknown tool: "] followed by that name; the client is not
    invoked and nothing is raised. *)
Theorem unknown_tool_reports_name :
  forall (c : TavilyClient) (name : string) (arguments : dict) (log : list call),
    ~ In name (map tool_name list_tools) ->
    exists t : string,
      call_tool c name arguments log = (Ok [text_content t], log)
      /\ t = "Error: Unknown tool: " ++ name
      /\ occurs_in name t.
Proof.
  intros c name arguments log Hnot.
  exists ("Error: Unknown tool: " ++ name).
  split; [|split; [reflexivity | apply occurs_in_app_r, occurs_in_refl]].
  unfold call_tool, call_tool_body, try_except.
  destruct (String.eqb name "tavily_search") eqn:E1.
  { apply String.eqb_eq in E1. subst. exfalso. apply Hnot. simpl. auto. }
  destruct (String.eqb name "tavily_qna_search") eqn:E2.
  { apply String.eqb_eq in E2. subst. exfalso. apply Hnot. simpl. auto. }
  destruct (String.eqb name "tavily_get_context") eqn:E3.
  { apply String.eqb_eq in E3. subst. exfalso. apply Hnot. simpl. auto. }
  destruct (String.eqb name "tavily_extract_content") eqn:E4.
  { apply String.eqb_eq in E4. subst. exfalso. apply Hnot. simpl. auto. }
  reflexivity.
Qed.

Lemma unknown_tool_reports_name_witness :
  exists t : string,
    call_tool idle_client "tavily_translate" [("query", VStr "x")] []
    = (Ok [text_content t], [])
    /\ t = "Error: Unknown tool: " ++ "tavily_translate"
    /\ occurs_in "tavily_translate" t.
Proof.
  apply (unknown_tool_reports_name idle_client "tavily_translate"
           [("query", VStr "x")] []).
  simpl. intros [H|[H|[H|[H|[]]]]]; discriminate H.
Defined.

(** ** Arguments outside the declared bounds *)

(** A parameter declared as a plain string is refused only when it is
    missing or is not a text. *)
Lemma check_parameter_text (required : bool) (name : string) (arguments : dict) :
  match check_parameter required (plain_property name "string") arguments with
  | inl _ => forall s, dict_lookup name arguments <> Some (VStr s)
  | inr _ => True
  end.
Proof.
  unfold check_parameter. cbn [prop_name prop_type prop_default plain_property].
  destruct (dict_lookup name arguments) as [v|].
  - destruct v; cbn; try exact I; intros s H; discriminate H.
  - destruct required; [intros s H; discriminate H | exact I].
Qed.

Lemma dispatch_rejects (c : TavilyClient) (render : ValidationError -> string)
    (name : string) (descriptor : Tool) (arguments : dict) (log : list call)
    (e : ValidationError) :
  find_tool name = Some descriptor ->
  validate descriptor arguments = inl e ->
  dispatch c render name arguments log = (Ok [text_content (render e)], log).
Proof.
  intros Hfind Hval. unfold dispatch. now rewrite Hfind, Hval.
Qed.

Lemma dispatch_accepts (c : TavilyClient) (render : ValidationError -> string)
    (name : string) (descriptor : Tool) (arguments normalized : dict)
    (log : list call) :
  find_tool name = Some descriptor ->
  validate descriptor arguments = inr normalized ->
  dispatch c render name arguments log = call_tool c name normalized log.
Proof.
  intros Hfind Hval. unfold dispatch. now rewrite Hfind, Hval.
Qed.

(** C3. A call of [tavily_search] whose [max_results] is an integer outside
    the declared range from 1 to 20 fails validation and never reaches the
    Tavily client: the dispatch answers with the rendering of the failure
    and the log of client invocations is left as it was.  When the query
    is a text, as in the call with query ["x"] and [max_results] 0, the
    failure is [OutOfRange] on [max_results], with the bound that is
    violated. *)
Theorem out_of_range_max_results_is_rejected :
  forall (c : TavilyClient) (render : ValidationError -> string)
         (arguments : dict) (n : Z) (log : list call),
    dict_lookup "max_results" arguments = Some (VInt n) ->
    (n < 1 \/ 20 < n)%Z ->
    exists (descriptor : Tool) (e : ValidationError),
      find_tool "tavily_search" = Some descriptor
      /\ validate descriptor arguments = inl e
      /\ dispatch c render "tavily_search" arguments log
         = (Ok [text_content (render e)], log)
      /\ (forall q, dict_lookup "query" arguments = Some (VStr q) ->
            e = OutOfRange "max_results" (if (n <? 1)%Z then 1 else 20)%Z)
      /\ option_map prop_minimum (declared "tavily_search" "max_results")
         = Some (Some 1%Z)
      /\ option_map prop_maximum (declared "tavily_search" "max_results")
         = Some (Some 20%Z).
Proof.
  intros c render arguments n log Hn Hout.
  assert (Hmax : check_parameter false
                   {| prop_name := "max_results"; prop_type := "integer";
                      prop_default := Some (VInt 5);
                      prop_minimum := Some 1%Z; prop_maximum := Some 20%Z;
                      prop_maxItems := None |} arguments
                 = inl (OutOfRange "max_results" (if (n <? 1)%Z then 1 else 20)%Z)).
  { unfold check_parameter. cbn [prop_name prop_type]. rewrite Hn.
    cbn [has_type String.eqb Ascii.eqb Bool.eqb negb range_violation
         prop_minimum prop_maximum].
    destruct (Z.ltb_spec n 1) as [_|Hge]; [reflexivity|].
    destruct (Z.ltb_spec 20 n) as [_|Hle]; [reflexivity | lia]. }
  assert (Hval : exists e,
             validate (nth 0 list_tools (Build_Tool EmptyString [] [])) arguments
             = inl e
             /\ (forall q, dict_lookup "query" arguments = Some (VStr q) ->
                   e = OutOfRange "max_results" (if (n <? 1)%Z then 1 else 20)%Z)).
  { unfold validate.
    cbn [nth list_tools tool_required tool_properties validate_parameters].
    change (existsb (String.eqb (prop_name (plain_property "query" "string")))
                    ["query"]) with true.
    pose proof (check_parameter_text true "query" arguments) as Hquery.
    destruct (check_parameter true (plain_property "query" "string") arguments)
      as [e|entry].
    - exists e. split; [reflexivity|].
      intros q Hlook. destruct (Hquery q Hlook).
    - cbn [prop_name].
      change (existsb (String.eqb "max_results") ["query"]) with false.
      rewrite Hmax. eexists. split; [reflexivity | auto]. }
  destruct Hval as (e & Hval & Hkind).
  exists (nth 0 list_tools (Build_Tool EmptyString [] [])), e.
  split; [reflexivity|]. split; [exact Hval|].
  split; [|split; [exact Hkind | split; reflexivity]].
  apply (dispatch_rejects c render "tavily_search"
           (nth 0 list_tools (Build_Tool EmptyString [] [])) arguments log e);
    [reflexivity | exact Hval].
Qed.

Lemma out_of_range_max_results_is_rejected_witness :
  exists (descriptor : Tool) (e : ValidationError),
    find_tool "tavily_search" = Some descriptor
    /\ validate descriptor [("query", VStr "x"); ("max_results", VInt 0)] = inl e
    /\ dispatch quiet_client sample_rendering "tavily_search"
         [("query", VStr "x"); ("max_results", VInt 0)] []
       = (Ok [text_content (sample_rendering e)], [])
    /\ (forall q,
          dict_lookup "query" [("query", VStr "x"); ("max_results", VInt 0)]
          = Some (VStr q) ->
          e = OutOfRange "max_results" (if (0 <? 1)%Z then 1 else 20)%Z)
    /\ option_map prop_minimum (declared "tavily_search" "max_results")
       = Some (Some 1%Z)
    /\ option_map prop_maximum (declared "tavily_search" "max_results")
       = Some (Some 20%Z).
Proof.
  apply (out_of_range_max_results_is_rejected quiet_client sample_rendering
           [("query", VStr "x"); ("max_results", VInt 0)] 0 []).
  - reflexivity.
  - lia.
Defined.

(** C4. A call of [tavily_extract_content] whose [urls] is a list of more
    than 20 items fails validation and the extraction is not performed:
    the dispatch answers with the rendering of the failure and the log of
    client invocations is left as it was.  When the items are texts, as
    for 21 URLs, the failure is [TooManyItems] on [urls], with the limit
    20. *)
Theorem too_many_urls_is_rejected :
  forall (c : TavilyClient) (render : ValidationError -> string)
         (arguments : dict) (urls : list value) (log : list call),
    dict_lookup "urls" arguments = Some (VList urls) ->
    20 < length urls ->
    exists (descriptor : Tool) (e : ValidationError),
      find_tool "tavily_extract_content" = Some descriptor
      /\ validate descriptor arguments = inl e
      /\ dispatch c render "tavily_extract_content" arguments log
         = (Ok [text_content (render e)], log)
      /\ (forallb is_text urls = true -> e = TooManyItems "urls" 20)
      /\ option_map prop_maxItems (declared "tavily_extract_content" "urls")
         = Some (Some 20).
Proof.
  intros c render arguments urls log Hu Hlen.
  assert (Hval : exists e,
             validate (nth 3 list_tools (Build_Tool EmptyString [] [])) arguments
             = inl e
             /\ (forallb is_text urls = true -> e = TooManyItems "urls" 20)).
  { unfold validate.
    cbn [nth list_tools tool_required tool_properties validate_parameters].
    unfold check_parameter at 1. cbn [prop_name prop_type]. rewrite Hu.
    cbn [has_type String.eqb Ascii.eqb Bool.eqb].
    destruct (forallb is_text urls).
    - cbn [negb range_violation too_many_items prop_maxItems].
      destruct (Nat.ltb_spec 20 (length urls)) as [_|Hle]; [|lia].
      eexists. split; [reflexivity | auto].
    - cbn [negb]. eexists. split; [reflexivity | discriminate]. }
  destruct Hval as (e & Hval & Hkind).
  exists (nth 3 list_tools (Build_Tool EmptyString [] [])), e.
  split; [reflexivity|]. split; [exact Hval|].
  split; [|split; [exact Hkind | reflexivity]].
  apply (dispatch_rejects c render "tavily_extract_content"
           (nth 3 list_tools (Build_Tool EmptyString [] [])) arguments log e);
    [reflexivity | exact Hval].
Qed.

Lemma too_many_urls_is_rejected_witness :
  exists (descriptor : Tool) (e : ValidationError),
    find_tool "tavily_extract_content" = Some descriptor
    /\ validate descriptor [("urls", VList (map VStr (url_texts 21)))] = inl e
    /\ dispatch quiet_client sample_rendering "tavily_extract_content"
         [("urls", VList (map VStr (url_texts 21)))] []
       = (Ok [text_content (sample_rendering e)], [])
    /\ (forallb is_text (map VStr (url_texts 21)) = true ->
        e = TooManyItems "urls" 20)
    /\ option_map prop_maxItems (declared "tavily_extract_content" "urls")
       = Some (Some 20).
Proof.
  apply (too_many_urls_is_rejected quiet_client sample_rendering
           [("urls", VList (map VStr (url_texts 21)))] (map VStr (url_texts 21)) []).
  - reflexivity.
  - simpl. lia.
Defined.

(** Within the declared bounds the validation lets the call through,
    with the defaults filled in. *)
Lemma in_range_search_passes_validation (c : TavilyClient)
    (render : ValidationError -> string) (q : string) (n : Z) (log : list call) :
  (1 <= n <= 20)%Z ->
  validate (nth 0 list_tools (Build_Tool EmptyString [] []))
           [("query", VStr q); ("max_results", VInt n)]
  = inr [("query", VStr q); ("max_results", VInt n)]
  /\ dispatch c render "tavily_search" [("query", VStr q); ("max_results", VInt n)] log
     = call_tool c "tavily_search" [("query", VStr q); ("max_results", VInt n)] log.
Proof.
  intros Hn.
  assert (Hval : validate (nth 0 list_tools (Build_Tool EmptyString [] []))
                          [("query", VStr q); ("max_results", VInt n)]
                 = inr [("query", VStr q); ("max_results", VInt n)]).
  { unfold validate, check_parameter. cbn.
    destruct (Z.ltb_spec n 1) as [Hlt|_]; [lia|].
    destruct (Z.ltb_spec 20 n) as [Hgt|_]; [lia | reflexivity]. }
  split; [exact Hval|].
  apply (dispatch_accepts c render "tavily_search"
           (nth 0 list_tools (Build_Tool EmptyString [] [])));
    [reflexivity | exact Hval].
Qed.

Lemma few_urls_pass_validation (c : TavilyClient)
    (render : ValidationError -> string) (urls : list string) (log : list call) :
  length urls <= 20 ->
  validate (nth 3 list_tools (Build_Tool EmptyString [] []))
           [("urls", VList (map VStr urls))]
  = inr [("urls", VList (map VStr urls)); ("include_images", VBool false)]
  /\ dispatch c render "tavily_extract_content" [("urls", VList (map VStr urls))] log
     = call_tool c "tavily_extract_content"
         [("urls", VList (map VStr urls)); ("include_images", VBool false)] log.
Proof.
  intros Hlen.
  assert (Htexts : forallb is_text (map VStr urls) = true).
  { induction urls as [|u urls IH]; [reflexivity|]. cbn. apply IH.
    simpl in Hlen. lia. }
  assert (Hval : validate (nth 3 list_tools (Build_Tool EmptyString [] []))
                          [("urls", VList (map VStr urls))]
                 = inr [("urls", VList (map VStr urls));
                        ("include_images", VBool false)]).
  { unfold validate.
    cbn [nth list_tools tool_required tool_properties validate_parameters].
    unfold check_parameter.
    cbn [prop_name prop_type prop_default prop_maxItems prop_minimum prop_maximum
         existsb String.eqb Ascii.eqb Bool.eqb orb dict_lookup has_type
         range_violation too_many_items].
    rewrite Htexts. cbn [negb]. rewrite length_map.
    destruct (Nat.ltb_spec 20 (length urls)) as [Hgt|_]; [lia | reflexivity]. }
  split; [exact Hval|].
  apply (dispatch_accepts c render "tavily_extract_content"
           (nth 3 list_tools (Build_Tool EmptyString [] [])));
    [reflexivity | exact Hval].
Qed.

(** ** Missing required arguments *)

(** C5. For each registered tool and each parameter its schema requires,
    a call whose arguments lack that parameter is answered with the error
    text naming it (["Error: 'query'"], ["Error: 'urls'"]) and the client is
    not invoked.  Every tool requires exactly one parameter, so the one
    reported is the first missing one in declaration order. *)
Theorem missing_required_argument :
  forall (c : TavilyClient) (t : Tool) (p : string) (arguments : dict)
         (log : list call),
    In t list_tools ->
    In p (tool_required t) ->
    dict_lookup p arguments = None ->
    tool_required t = [p]
    /\ call_tool c (tool_name t) arguments log
       = (Ok [text_content ("Error: " ++ sq ++ p ++ sq)], log)
    /\ occurs_in p ("Error: " ++ sq ++ p ++ sq).
Proof.
  intros c t p arguments log Ht Hp Hmiss.
  assert (Hkey : In (tool_name t, p)
                   [ ("tavily_search", "query"); ("tavily_qna_search", "query");
                     ("tavily_get_context", "query");
                     ("tavily_extract_content", "urls") ]
                 /\ tool_required t = [p]).
  { simpl in Ht. destruct Ht as [E|[E|[E|[E|[]]]]]; subst t; simpl in Hp;
      destruct Hp as [E|[]]; subst p; simpl; auto 6. }
  destruct Hkey as [Hkey Hreq].
  split; [exact Hreq|]. split.
  - unfold call_tool, try_except.
    rewrite (handler_missing_key c arguments log _ _ Hkey Hmiss).
    simpl in Hkey.
    destruct Hkey as [E|[E|[E|[E|[]]]]]; inversion E; reflexivity.
  - apply occurs_in_app_r, occurs_in_app_r, occurs_in_app_l, occurs_in_refl.
Qed.

Lemma missing_required_argument_witness :
  tool_required (nth 0 list_tools (Build_Tool EmptyString [] [])) = ["query"]
  /\ call_tool quiet_client
       (tool_name (nth 0 list_tools (Build_Tool EmptyString [] [])))
       [("max_results", VInt 3)] []
     = (Ok [text_content ("Error: " ++ sq ++ "query" ++ sq)], [])
  /\ occurs_in "query" ("Error: " ++ sq ++ "query" ++ sq).
Proof.
  apply (missing_required_argument quiet_client
           (nth 0 list_tools (Build_Tool EmptyString [] [])) "query"
           [("max_results", VInt 3)] []).
  - simpl. auto.
  - simpl. auto.
  - reflexivity.
Defined.

(** ** Search with nothing found *)

(** The stop of a slice only matters through [slice_count]; an empty list
    stays empty under every stop. *)
Lemma search_results_of_empty_list (response : dict) (max_results : value)
    (stop : option Z) :
  dict_lookup "results" response = Some (VList []) ->
  slice_stop max_results = Ok stop ->
  search_results (VDict response) max_results = Ok [].
Proof.
  intros Hres Hstop.
  unfold search_results, contains, getitem, dict_getitem, slice_to.
  rewrite Hres. cbn [rbind]. rewrite Hstop. cbn [rbind].
  rewrite firstn_nil. reflexivity.
Qed.

(** C6. When the search goes through (the arguments carry a query, the
    client answers with an empty list of results, and [max_results] is
    usable as the stop of a slice, as every [int] or a missing value is) the
    response is exactly ["No search results found."]: a text that is not
    empty and that none of the [except] clauses can write. *)
Theorem empty_search_reports_no_results :
  forall (c : TavilyClient) (arguments : dict) (query : value) (response : dict)
         (stop : option Z) (log : list call),
    dict_lookup "query" arguments = Some query ->
    slice_stop (dict_get arguments "max_results" (VInt 5)) = Ok stop ->
    search c (search_call arguments query) = Ok (VDict response) ->
    dict_lookup "results" response = Some (VList []) ->
    call_tool c "tavily_search" arguments log
    = (Ok [text_content "No search results found."],
       (log ++ [CallSearch (search_call arguments query)])%list)
    /\ "No search results found." <> EmptyString
    /\ is_failure_text "No search results found." = false
    /\ (forall (prefix : string) (e : exn),
          In prefix failure_prefixes ->
          "No search results found." <> prefix ++ str_exn e).
Proof.
  intros c arguments query response stop log Hq Hstop Hans Hres.
  split; [|split; [discriminate | split; [reflexivity|]]].
  - unfold call_tool, try_except.
    change (call_tool_body c "tavily_search" arguments)
      with (handle_search c arguments).
    rewrite (handle_search_run c arguments log query Hq).
    unfold search_text. rewrite Hans. cbn [rbind].
    rewrite (search_results_of_empty_list response _ stop Hres Hstop).
    reflexivity.
  - intros prefix e Hin Heq.
    assert (Hf : is_failure_text "No search results found." = true).
    { rewrite Heq. apply failure_text_of_prefix, Hin. }
    discriminate Hf.
Qed.

Lemma empty_search_reports_no_results_witness :
  call_tool quiet_client "tavily_search" [("query", VStr "x")] []
  = (Ok [text_content "No search results found."],
     ([] ++ [CallSearch (search_call [("query", VStr "x")] (VStr "x"))])%list)
  /\ "No search results found." <> EmptyString
  /\ is_failure_text "No search results found." = false
  /\ (forall (prefix : string) (e : exn),
        In prefix failure_prefixes ->
        "No search results found." <> prefix ++ str_exn e).
Proof.
  apply (empty_search_reports_no_results quiet_client [("query", VStr "x")]
           (VStr "x") [("results", VList [])] (Some 5%Z) []);
    reflexivity.
Defined.

(** ** Context retrieval *)

Lemma split_from_length (s cur : string) :
  length (split_from cur s)
  = match cur with
    | EmptyString => word_starts true s
    | _ => word_starts false s + 1
    end.
Proof.
  revert cur. induction s as [|ch r IH]; intros cur.
  - destruct cur; reflexivity.
  - cbn [split_from word_starts]. destruct (is_space ch).
    + destruct cur as [|x cur]; cbn [length]; rewrite IH; lia.
    + rewrite IH. destruct cur as [|x cur]; cbn [append]; lia.
Qed.

Lemma str_split_length (s : string) : length (str_split s) = word_starts true s.
Proof.
  unfold str_split. now rewrite split_from_length.
Qed.

Lemma no_space_app (a b : string) : no_space (a ++ b) = no_space a && no_space b.
Proof.
  induction a as [|x a IH]; simpl; [reflexivity|].
  now rewrite IH, andb_assoc.
Qed.

(** Every word is a non-empty run free of whitespace. *)
Lemma split_from_words (s cur : string) :
  no_space cur = true ->
  Forall (fun w => w <> EmptyString /\ no_space w = true) (split_from cur s).
Proof.
  revert cur. induction s as [|ch r IH]; intros cur Hcur.
  - destruct cur; constructor; [split; [discriminate | exact Hcur] | constructor].
  - cbn [split_from]. destruct (is_space ch) eqn:Hsp.
    + destruct cur as [|x cur]; [apply IH; reflexivity|].
      constructor; [split; [discriminate | exact Hcur] | apply IH; reflexivity].
    + apply IH. rewrite no_space_app, Hcur. simpl. now rewrite Hsp.
Qed.

Lemma str_split_words (s : string) :
  Forall (fun w => w <> EmptyString /\ no_space w = true) (str_split s).
Proof.
  apply split_from_words. reflexivity.
Qed.

(** C7. When the client returns a text as context, the response of
    [tavily_get_context] holds that text, the requested [max_tokens], and
    the number of words obtained by splitting that very text on whitespace:
    the count is computed by the handler from the text it received. *)
Theorem context_report_counts_words :
  forall (c : TavilyClient) (arguments : dict) (query : value) (context : string)
         (log : list call),
    dict_lookup "query" arguments = Some query ->
    get_search_context c query (dict_get arguments "max_tokens" (VInt 4000))
    = Ok (VStr context) ->
    exists t : string,
      call_tool c "tavily_get_context" arguments log
      = (Ok [text_content t],
         (log ++ [CallGetSearchContext query
                    (dict_get arguments "max_tokens" (VInt 4000))])%list)
      /\ occurs_in context t
      /\ occurs_in ("**Max Tokens Requested:** "
                    ++ py_str (dict_get arguments "max_tokens" (VInt 4000))) t
      /\ occurs_in ("**Context Length:** ~" ++ dec_nat (length (str_split context))
                    ++ " words") t
      /\ length (str_split context) = word_starts true context.
Proof.
  intros c arguments query context log Hq Hans.
  eexists. split.
  - unfold call_tool, try_except.
    change (call_tool_body c "tavily_get_context" arguments)
      with (handle_get_context c arguments).
    rewrite (handle_get_context_run c arguments log query Hq).
    unfold context_text. rewrite Hans.
    unfold rbind, context_report, method_split. reflexivity.
  - cbn [py_str]. repeat split; try find_occurrence.
    apply str_split_length.
Qed.

Lemma context_report_counts_words_witness :
  exists t : string,
    call_tool context_client "tavily_get_context"
      [("query", VStr "greek letters"); ("max_tokens", VInt 500)] []
    = (Ok [text_content t],
       [CallGetSearchContext (VStr "greek letters") (VInt 500)])
    /\ occurs_in ten_words t
    /\ occurs_in "**Max Tokens Requested:** 500" t
    /\ occurs_in "**Context Length:** ~10 words" t
    /\ length (str_split ten_words) = 10.
Proof.
  exact (context_report_counts_words context_client
           [("query", VStr "greek letters"); ("max_tokens", VInt 500)]
           (VStr "greek letters") ten_words [] eq_refl eq_refl).
Defined.

(** ** Search results *)

Lemma field_text_absent (d : dict) (k default : string) :
  dict_lookup k d = None -> field_text d k default = default.
Proof.
  intros H. unfold field_text, dict_get. now rewrite H.
Qed.

Lemma field_text_present (d : dict) (k default : string) (v : value) :
  dict_lookup k d = Some v -> field_text d k default = py_str v.
Proof.
  intros H. unfold field_text, dict_get. now rewrite H.
Qed.

Lemma numbered_from_length (start : nat) (block : nat -> dict -> string)
    (l : list dict) :
  length (numbered_from start block l) = length l.
Proof.
  revert start. induction l as [|d l IH]; intros start; [reflexivity|].
  unfold numbered_from in *. simpl. now rewrite IH.
Qed.

Lemma rmap_enumerated_dicts (f : nat -> value -> result string)
    (block : nat -> dict -> string) (l : list dict) :
  Forall (fun d => forall i, f i (VDict d) = Ok (block i d)) l ->
  forall start,
    rmap_list (fun p => f (fst p) (snd p)) (enumerate_from start (map VDict l))
    = Ok (numbered_from start block l).
Proof.
  induction 1 as [|d l Hd _ IH]; intros start; [reflexivity|].
  cbn [map enumerate_from rmap_list fst snd].
  rewrite Hd. cbn [rbind]. rewrite IH. reflexivity.
Qed.

Lemma format_enumerated_dicts (f : nat -> value -> result string)
    (block : nat -> dict -> string) (l : list dict) :
  Forall (fun d => forall i, f i (VDict d) = Ok (block i d)) l ->
  format_enumerated f (map VDict l) = Ok (numbered_blocks block l).
Proof.
  intros H. apply rmap_enumerated_dicts, H.
Qed.

Lemma format_search_result_dict (i : nat) (d : dict) :
  format_search_result i (VDict d) = Ok (record_block i d).
Proof. reflexivity. Qed.

(** The blocks of a search whose answer lists records: the slice
    [[:max_results]] decides how many are kept. *)
Lemma search_results_of_records (response : dict) (records : list dict)
    (max_results : value) (stop : option Z) :
  dict_lookup "results" response = Some (VList (map VDict records)) ->
  slice_stop max_results = Ok stop ->
  search_results (VDict response) max_results
  = Ok (numbered_blocks record_block
          (firstn (slice_count (length records) stop) records)).
Proof.
  intros Hres Hstop.
  unfold search_results, contains, getitem, dict_getitem, slice_to.
  rewrite Hres. cbn [rbind]. rewrite Hstop. cbn [rbind iterate].
  rewrite length_map, firstn_map.
  apply format_enumerated_dicts.
  apply Forall_forall. intros d _ i. apply format_search_result_dict.
Qed.

(** C8, counterexample. With three records returned and [max_results] 5
    the count summary does not close the listing: ["Found 3 results:"]
    stands ahead of the three blocks, and what follows the last block is
    the fixed completion line, which states no count.  With no record
    returned there is no listing and no count summary: the response is the
    fixed sentence. *)
Lemma count_summary_heads_the_listing :
  call_tool three_records_client "tavily_search"
    [("query", VStr "x"); ("max_results", VInt 5)] []
  = (Ok [text_content
           (nl ++ "# Tavily Search Results for: " ++ dq ++ "x" ++ dq ++ nl
            ++ nl
            ++ "Found 3 results:" ++ nl
            ++ nl
            ++ str_concat
                 (numbered_blocks record_block
                    [sample_fields "a"; sample_fields "b"; sample_fields "c"])
            ++ nl ++ nl ++ "**Search completed successfully.**" ++ nl)],
     [CallSearch {| sp_query := VStr "x"; sp_max_results := VInt 5;
                    sp_include_domains := None; sp_exclude_domains := None |}])
  /\ str_containsb "Found"
       (nl ++ nl ++ "**Search completed successfully.**" ++ nl) = false
  /\ str_containsb "3"
       (nl ++ nl ++ "**Search completed successfully.**" ++ nl) = false
  /\ call_tool quiet_client "tavily_search"
       [("query", VStr "x"); ("max_results", VInt 5)] []
     = (Ok [text_content "No search results found."],
        [CallSearch {| sp_query := VStr "x"; sp_max_results := VInt 5;
                       sp_include_domains := None; sp_exclude_domains := None |}])
  /\ str_containsb "Found" "No search results found." = false.
Proof.
  repeat split.
Qed.

(** C8, as amended. For a search that goes through with a [max_results]
    that is a non-negative [int] (5 when missing) and a client returning a
    list of records, the formatter renders the first [max_results] records
    and no more, one numbered block each, whatever the number returned; in a
    block each of title, URL, content and score reads ["N/A"] when the
    record has no such key.  Every block occurs in the response, and the
    response states their number in a count summary,
    ["Found N results:"], that heads the listing; the listing is closed by
    the fixed completion line.  When no block is rendered the response is
    ["No search results found."]. *)
Theorem search_renders_at_most_max_results :
  forall (c : TavilyClient) (arguments : dict) (query : value) (response : dict)
         (records : list dict) (n : Z) (log : list call),
    dict_lookup "query" arguments = Some query ->
    slice_stop (dict_get arguments "max_results" (VInt 5)) = Ok (Some n) ->
    (0 <= n)%Z ->
    search c (search_call arguments query) = Ok (VDict response) ->
    dict_lookup "results" response = Some (VList (map VDict records)) ->
    exists blocks : list string,
      blocks = numbered_blocks record_block (firstn (Z.to_nat n) records)
      /\ length blocks = Nat.min (Z.to_nat n) (length records)
      /\ (Z.of_nat (length blocks) <= n)%Z
      /\ call_tool c "tavily_search" arguments log
         = (Ok [text_content (match blocks with
                              | [] => "No search results found."
                              | _ => search_report query blocks
                              end)],
            (log ++ [CallSearch (search_call arguments query)])%list)
      /\ occurs_in ("Found " ++ dec_nat (length blocks) ++ " results:")
                   (search_report query blocks)
      /\ search_report query blocks
         = nl ++ "# Tavily Search Results for: " ++ dq ++ py_str query ++ dq ++ nl
           ++ nl
           ++ "Found " ++ dec_nat (length blocks) ++ " results:" ++ nl
           ++ nl
           ++ str_concat blocks
           ++ nl ++ nl ++ "**Search completed successfully.**" ++ nl
      /\ (forall b, In b blocks -> occurs_in b (search_report query blocks))
      /\ (forall (d : dict) (k : string),
            In k ["title"; "url"; "content"; "score"] ->
            dict_lookup k d = None -> field_text d k "N/A" = "N/A").
Proof.
  intros c arguments query response records n log Hq Hstop Hn Hans Hres.
  eexists. split; [reflexivity|].
  assert (Hlen : length (numbered_blocks record_block (firstn (Z.to_nat n) records))
                 = Nat.min (Z.to_nat n) (length records)).
  { unfold numbered_blocks. now rewrite numbered_from_length, length_firstn. }
  split; [exact Hlen|]. split; [rewrite Hlen; lia|].
  split; [|split; [|split; [|split]]].
  - unfold call_tool, try_except.
    change (call_tool_body c "tavily_search" arguments)
      with (handle_search c arguments).
    rewrite (handle_search_run c arguments log query Hq).
    unfold search_text. rewrite Hans. cbn [rbind].
    rewrite (search_results_of_records response records _ (Some n) Hres Hstop).
    unfold slice_count.
    destruct (Z.ltb_spec n 0) as [Hneg|_]; [lia|].
    destruct (numbered_blocks _ _); reflexivity.
  - unfold search_report. find_occurrence.
  - reflexivity.
  - intros b Hb. unfold search_report.
    eapply occurs_in_trans; [apply (occurs_in_concat b _ Hb)|].
    find_occurrence.
  - intros d k _ Hk. apply field_text_absent, Hk.
Qed.

Lemma search_renders_at_most_max_results_witness :
  exists blocks : list string,
    blocks = numbered_blocks record_block
               (firstn (Z.to_nat 2)
                  [sample_fields "a"; sample_fields "b"; sample_fields "c"])
    /\ length blocks = Nat.min (Z.to_nat 2) 3
    /\ (Z.of_nat (length blocks) <= 2)%Z
    /\ call_tool three_records_client "tavily_search"
         [("query", VStr "x"); ("max_results", VInt 2)] []
       = (Ok [text_content (match blocks with
                            | [] => "No search results found."
                            | _ => search_report (VStr "x") blocks
                            end)],
          ([] ++ [CallSearch (search_call [("query", VStr "x"); ("max_results", VInt 2)]
                                          (VStr "x"))])%list)
    /\ occurs_in ("Found " ++ dec_nat (length blocks) ++ " results:")
                 (search_report (VStr "x") blocks)
    /\ search_report (VStr "x") blocks
       = nl ++ "# Tavily Search Results for: " ++ dq ++ py_str (VStr "x") ++ dq ++ nl
         ++ nl
         ++ "Found " ++ dec_nat (length blocks) ++ " results:" ++ nl
         ++ nl
         ++ str_concat blocks
         ++ nl ++ nl ++ "**Search completed successfully.**" ++ nl
    /\ (forall b, In b blocks -> occurs_in b (search_report (VStr "x") blocks))
    /\ (forall (d : dict) (k : string),
          In k ["title"; "url"; "content"; "score"] ->
          dict_lookup k d = None -> field_text d k "N/A" = "N/A").
Proof.
  apply (search_renders_at_most_max_results three_records_client
           [("query", VStr "x"); ("max_results", VInt 2)] (VStr "x")
           [("results",
             VList [sample_record "a"; sample_record "b"; sample_record "c"])]
           [sample_fields "a"; sample_fields "b"; sample_fields "c"] 2 []);
    try reflexivity.
  lia.
Defined.

(** ** Content extraction *)

Lemma slice_500_of_str (s : string) :
  slice_to (VStr s) (VInt 500) = Ok (VStr (str_take 500 s)).
Proof. reflexivity. Qed.

Lemma content_preview_short (s : string) :
  String.length s <= 500 -> content_preview s = s.
Proof.
  intros H. unfold content_preview.
  destruct (Nat.ltb_spec 500 (String.length s)) as [Hlt|_]; [lia|].
  now apply str_take_all.
Qed.

Lemma content_preview_long (s : string) :
  500 < String.length s ->
  content_preview s = str_take 500 s ++ "..."
  /\ String.length (str_take 500 s) <= 500.
Proof.
  intros H. unfold content_preview.
  destruct (Nat.ltb_spec 500 (String.length s)) as [_|Hle]; [|lia].
  split; [reflexivity | apply str_take_length].
Qed.

Lemma format_extract_result_dict (include_images : value) (d : dict) :
  page_shape d ->
  forall i, format_extract_result include_images i (VDict d)
            = Ok (page_block include_images i d).
Proof.
  intros [Hraw Himg] i.
  assert (Hr : dict_get d "raw_content" (VStr EmptyString) = VStr (raw_text d)).
  { unfold dict_get, raw_text.
    destruct Hraw as [-> | [s ->]]; reflexivity. }
  assert (Hi : dict_get d "images" VNone = VNone /\ images_of d = []
               \/ dict_get d "images" VNone = VList (images_of d)
                  /\ dict_lookup "images" d = Some (VList (images_of d))).
  { unfold dict_get, images_of.
    destruct Himg as [-> | [l ->]]; [left | right]; split; reflexivity. }
  unfold format_extract_result, page_block, images_line, content_preview,
    method_get, field_text.
  rewrite Hr. cbn [rbind]. rewrite slice_500_of_str. cbn [rbind py_len].
  assert (Hpre : (if (500 <? String.length (raw_text d))%nat
                  then iadd_str (VStr (str_take 500 (raw_text d))) "..."
                  else Ok (VStr (str_take 500 (raw_text d))))
                 = Ok (VStr (if (500 <? String.length (raw_text d))%nat
                             then str_take 500 (raw_text d) ++ "..."
                             else str_take 500 (raw_text d)))).
  { destruct (500 <? String.length (raw_text d))%nat; reflexivity. }
  rewrite Hpre. cbn [rbind py_str].
  destruct (truthy include_images); cbn [andb rbind].
  - destruct Hi as [[-> ->] | [-> Hl]].
    + cbn [truthy rbind length Nat.eqb negb]. rewrite !str_app_assoc. reflexivity.
    + destruct (images_of d) as [|x l] eqn:Himgs.
      * cbn [truthy rbind length Nat.eqb negb]. rewrite !str_app_assoc. reflexivity.
      * cbn [truthy rbind getitem]. unfold dict_getitem. rewrite Hl.
        cbn [rbind py_len]. cbn [length Nat.eqb negb].
        rewrite !str_app_assoc. reflexivity.
  - rewrite !str_app_assoc. reflexivity.
Qed.

Lemma extract_results_of_pages (include_images : value) (response : dict)
    (pages : list dict) :
  records_under "results" response pages ->
  Forall page_shape pages ->
  extract_results (VDict response) include_images
  = Ok (numbered_blocks (page_block include_images) pages).
Proof.
  intros [[Hnone ->] | Hsome] Hshape;
    unfold extract_results, contains, getitem, dict_getitem.
  - rewrite Hnone. reflexivity.
  - rewrite Hsome. cbn [rbind iterate].
    apply format_enumerated_dicts.
    eapply Forall_impl; [|exact Hshape].
    intros d Hd i. now apply format_extract_result_dict.
Qed.

Lemma rmap_format_failed (l : list dict) :
  rmap_list format_failed (map VDict l) = Ok (map failed_line l).
Proof.
  induction l as [|d l IH]; [reflexivity|].
  cbn [map rmap_list]. rewrite IH. reflexivity.
Qed.

Lemma extract_failed_of_records (response : dict) (failures : list dict) :
  records_under "failed_results" response failures ->
  extract_failed (VDict response) = Ok (map failed_line failures).
Proof.
  intros [[Hnone ->] | Hsome];
    unfold extract_failed, contains, getitem, dict_getitem.
  - rewrite Hnone. reflexivity.
  - rewrite Hsome. cbn [rbind].
    destruct failures as [|d l]; [reflexivity|].
    cbn [map truthy rbind iterate].
    apply (rmap_format_failed (d :: l)).
Qed.

Lemma images_line_cases (include_images : value) (d : dict) :
  (truthy include_images = true /\ images_of d <> [] ->
   images_line include_images d
   = "**Images Found:** " ++ dec_nat (length (images_of d)) ++ " images" ++ nl)
  /\ (truthy include_images = false \/ images_of d = [] ->
      images_line include_images d = EmptyString).
Proof.
  unfold images_line. split.
  - intros [-> Hne]. destruct (images_of d); [contradiction | reflexivity].
  - intros [-> | ->]; [reflexivity|]. now rewrite andb_false_r.
Qed.

(** C9. When an extraction goes through and the client's answer has the
    documented shape, the response is the report with two sections.  The
    first lists one block per extracted page: its URL, the first 500
    characters of its content, followed by ["..."] exactly when the content
    has more than 500, the length of the whole content, and a line counting
    the images exactly when [include_images] is set and the page has
    images.  The second lists one line per failed URL with its URL and its
    error.  Each heading states the number of entries of its section, zero
    included. *)
Theorem extraction_report_sections :
  forall (c : TavilyClient) (arguments : dict) (urls : value) (n : nat)
         (response : dict) (pages failures : list dict) (log : list call),
    dict_lookup "urls" arguments = Some urls ->
    py_len urls = Ok n ->
    extract c urls (dict_get arguments "include_images" (VBool false))
    = Ok (VDict response) ->
    records_under "results" response pages ->
    Forall page_shape pages ->
    records_under "failed_results" response failures ->
    exists (blocks lines : list string) (t : string),
      blocks = numbered_blocks
                 (page_block (dict_get arguments "include_images" (VBool false)))
                 pages
      /\ lines = map failed_line failures
      /\ t = extract_report blocks lines
      /\ call_tool c "tavily_extract_content" arguments log
         = (Ok [text_content t],
            (log ++ [CallExtract urls
                       (dict_get arguments "include_images" (VBool false))])%list)
      /\ occurs_in ("## Successfully Extracted (" ++ dec_nat (length pages)
                    ++ " URLs):") t
      /\ occurs_in ("## Failed Extractions (" ++ dec_nat (length failures)
                    ++ " URLs):") t
      /\ (forall b, In b blocks -> occurs_in b t)
      /\ (forall l, In l lines -> occurs_in l t)
      /\ (forall s : string,
            (exists rest, s = str_take 500 s ++ rest)
            /\ String.length (str_take 500 s) <= 500
            /\ (String.length s <= 500 -> content_preview s = s)
            /\ (500 < String.length s ->
                content_preview s = str_take 500 s ++ "..."
                /\ String.length (str_take 500 s) = 500))
      /\ (forall (include_images : value) (d : dict),
            (truthy include_images = true /\ images_of d <> [] ->
             images_line include_images d
             = "**Images Found:** " ++ dec_nat (length (images_of d))
               ++ " images" ++ nl)
            /\ (truthy include_images = false \/ images_of d = [] ->
                images_line include_images d = EmptyString)).
Proof.
  intros c arguments urls n response pages failures log Hu Hn Hans Hres Hshape Hfail.
  do 3 eexists.
  split; [reflexivity|]. split; [reflexivity|]. split; [reflexivity|].
  split; [|split; [|split; [|split; [|split; [|split]]]]].
  - unfold call_tool, try_except.
    change (call_tool_body c "tavily_extract_content" arguments)
      with (handle_extract_content c arguments).
    rewrite (handle_extract_content_run c arguments log urls n Hu Hn).
    unfold extract_text. rewrite Hans. cbn [rbind].
    rewrite (extract_results_of_pages _ response pages Hres Hshape). cbn [rbind].
    rewrite (extract_failed_of_records response failures Hfail). reflexivity.
  - unfold extract_report, numbered_blocks.
    rewrite numbered_from_length. find_occurrence.
  - unfold extract_report. rewrite length_map. find_occurrence.
  - intros b Hb. unfold extract_report.
    destruct (numbered_blocks _ pages) as [|b0 bs]; [destruct Hb|].
    cbv beta iota.
    eapply occurs_in_trans; [apply (occurs_in_concat b (b0 :: bs) Hb)|].
    find_occurrence.
  - intros l Hl. unfold extract_report.
    destruct (map failed_line failures) as [|l0 ls]; [destruct Hl|].
    cbv beta iota.
    eapply occurs_in_trans; [apply (occurs_in_join nl l (l0 :: ls) Hl)|].
    find_occurrence.
  - intros s. split; [apply str_take_prefix|].
    split; [apply str_take_length|]. split.
    + apply content_preview_short.
    + intros H. split; [apply (content_preview_long s H)|].
      apply str_take_exact. lia.
  - intros include_images d. apply images_line_cases.
Qed.

Lemma extraction_report_sections_witness :
  exists t : string,
    call_tool extraction_client "tavily_extract_content" extraction_arguments []
    = (Ok [text_content t], [CallExtract (VList (sample_urls 3)) (VBool true)])
    /\ occurs_in "## Successfully Extracted (2 URLs):" t
    /\ occurs_in "## Failed Extractions (1 URLs):" t
    /\ occurs_in (page_block (VBool true) 2 long_page) t
    /\ occurs_in "- https://example.org/c: timeout" t.
Proof.
  destruct (extraction_report_sections extraction_client extraction_arguments
              (VList (sample_urls 3)) 3 extraction_answer
              [short_page; long_page] [failed_page] []
              eq_refl eq_refl eq_refl (or_intror eq_refl)
              (Forall_cons short_page
                 (conj (or_intror (ex_intro _ "short text" eq_refl))
                       (or_intror (ex_intro _ [VStr "https://example.org/a.png"]
                                            eq_refl)))
                 (Forall_cons long_page
                    (conj (or_intror (ex_intro _ (repeat_text 60 "0123456789")
                                               eq_refl))
                          (or_introl eq_refl))
                    (Forall_nil _)))
              (or_intror eq_refl))
    as (blocks & lines & t & Hb & Hl & Ht & Hcall & Hn1 & Hn2 & Hblocks & Hlines & _).
  exists t. split; [exact Hcall|]. split; [exact Hn1|]. split; [exact Hn2|].
  split.
  - apply Hblocks. rewrite Hb. right. left. reflexivity.
  - apply Hlines. rewrite Hl. left. reflexivity.
Defined.

(** ** Empty domain filters *)




(** * Further properties of the Tavily server *)

(** ** What a call to [call_tool] does, tool by tool *)

Lemma call_tool_of_body (c : TavilyClient) (name : string) (arguments : dict)
    (log log' : list call) :
  (forall r, call_tool_body c name arguments log = (Ok r, log') ->
             call_tool c name arguments log = (Ok r, log'))
  /\ (forall e, call_tool_body c name arguments log = (Raise e, log') ->
                call_tool c name arguments log
                = (Ok [text_content ("Error: " ++ str_exn e)], log')).
Proof.
  unfold call_tool, try_except. split; intros x H; rewrite H; reflexivity.
Qed.

Lemma call_tool_body_cases (c : TavilyClient) (arguments : dict)
    (log : list call) (name : string) :
  (name = "tavily_search"
   /\ match dict_lookup "query" arguments with
      | Some query =>
          call_tool_body c name arguments log
          = (Ok [text_content
                   (search_text query (dict_get arguments "max_results" (VInt 5))
                                (search c (search_call arguments query)))],
             (log ++ [CallSearch (search_call arguments query)])%list)
      | None =>
          call_tool_body c name arguments log = (Raise (KeyError (VStr "query")), log)
      end)
  \/ (name = "tavily_qna_search"
      /\ match dict_lookup "query" arguments with
         | Some query =>
             call_tool_body c name arguments log
             = (Ok [text_content (qna_text query (qna_search c query))],
                (log ++ [CallQnaSearch query])%list)
         | None =>
             call_tool_body c name arguments log
             = (Raise (KeyError (VStr "query")), log)
         end)
  \/ (name = "tavily_get_context"
      /\ match dict_lookup "query" arguments with
         | Some query =>
             call_tool_body c name arguments log
             = (Ok [text_content
                      (context_text query (dict_get arguments "max_tokens" (VInt 4000))
                         (get_search_context c query
                            (dict_get arguments "max_tokens" (VInt 4000))))],
                (log ++ [CallGetSearchContext query
                           (dict_get arguments "max_tokens" (VInt 4000))])%list)
         | None =>
             call_tool_body c name arguments log
             = (Raise (KeyError (VStr "query")), log)
         end)
  \/ (name = "tavily_extract_content"
      /\ match dict_lookup "urls" arguments with
         | Some urls =>
             match py_len urls with
             | Ok _ =>
                 call_tool_body c name arguments log
                 = (Ok [text_content
                          (extract_text
                             (dict_get arguments "include_images" (VBool false))
                             (extract c urls
                                (dict_get arguments "include_images" (VBool false))))],
                    (log ++ [CallExtract urls
                               (dict_get arguments "include_images"
                                         (VBool false))])%list)
             | Raise e => call_tool_body c name arguments log = (Raise e, log)
             end
         | None =>
             call_tool_body c name arguments log
             = (Raise (KeyError (VStr "urls")), log)
         end)
  \/ (~ In name (map tool_name list_tools)
      /\ call_tool_body c name arguments log
         = (Raise (ValueError ("Unknown tool: " ++ name)), log)).
Proof.
  unfold call_tool_body.
  destruct (String.eqb_spec name "tavily_search") as [->|N1].
  { left. split; [reflexivity|].
    destruct (dict_lookup "query" arguments) as [query|] eqn:Hq.
    - apply (handle_search_run c arguments log query Hq).
    - unfold handle_search, bind, lift, dict_getitem. now rewrite Hq. }
  destruct (String.eqb_spec name "tavily_qna_search") as [->|N2].
  { right; left. split; [reflexivity|].
    destruct (dict_lookup "query" arguments) as [query|] eqn:Hq.
    - apply (handle_qna_search_run c arguments log query Hq).
    - unfold handle_qna_search, bind, lift, dict_getitem. now rewrite Hq. }
  destruct (String.eqb_spec name "tavily_get_context") as [->|N3].
  { right; right; left. split; [reflexivity|].
    destruct (dict_lookup "query" arguments) as [query|] eqn:Hq.
    - apply (handle_get_context_run c arguments log query Hq).
    - unfold handle_get_context, bind, lift, dict_getitem. now rewrite Hq. }
  destruct (String.eqb_spec name "tavily_extract_content") as [->|N4].
  { right; right; right; left. split; [reflexivity|].
    destruct (dict_lookup "urls" arguments) as [urls|] eqn:Hu.
    - destruct (py_len urls) as [n|e] eqn:Hn.
      + apply (handle_extract_content_run c arguments log urls n Hu Hn).
      + unfold handle_extract_content, bind, lift, dict_getitem.
        now rewrite Hu, Hn.
    - unfold handle_extract_content, bind, lift, dict_getitem. now rewrite Hu. }
  right; right; right; right. split; [|reflexivity].
  simpl. intros [E|[E|[E|[E|[]]]]]; congruence.
Qed.

Lemma log_not_extended (log : list call) (k : call) : log <> (log ++ [k])%list.
Proof.
  intros H. apply (f_equal (@length call)) in H.
  rewrite length_app in H. simpl in H. lia.
Qed.

Lemma py_len_sized (v : value) :
  match py_len v with
  | Ok _ => sized v = true
  | Raise e =>
      sized v = false
      /\ e = TypeError ("object of type '" ++ type_name v ++ "' has no len()")
  end.
Proof.
  destruct v; simpl; auto.
Qed.

(** X1. One call to [call_tool] invokes the client at most once, never
    retrying and never calling a method that belongs to another tool: the
    log of invocations is left as it was, or grows by exactly one call,
    made by the handler of the tool that was named. *)
Theorem call_tool_invokes_client_at_most_once :
  forall (c : TavilyClient) (name : string) (arguments : dict) (log : list call),
  exists (r : result (list TextContent)) (log' : list call),
    call_tool c name arguments log = (r, log')
    /\ (log' = log
        \/ exists k, log' = (log ++ [k])%list /\ call_tool_name k = name).
Proof.
  intros c name arguments log.
  destruct (call_tool_body_cases c arguments log name)
    as [[-> H]|[[-> H]|[[-> H]|[[-> H]|[_ H]]]]].
  - destruct (dict_lookup "query" arguments) as [query|].
    + apply (call_tool_of_body c _ arguments log _) in H.
      rewrite H. do 2 eexists. split; [reflexivity|]. right. eauto.
    + apply (call_tool_of_body c _ arguments log _) in H.
      rewrite H. do 2 eexists. split; [reflexivity|]. now left.
  - destruct (dict_lookup "query" arguments) as [query|].
    + apply (call_tool_of_body c _ arguments log _) in H.
      rewrite H. do 2 eexists. split; [reflexivity|]. right. eauto.
    + apply (call_tool_of_body c _ arguments log _) in H.
      rewrite H. do 2 eexists. split; [reflexivity|]. now left.
  - destruct (dict_lookup "query" arguments) as [query|].
    + apply (call_tool_of_body c _ arguments log _) in H.
      rewrite H. do 2 eexists. split; [reflexivity|]. right. eauto.
    + apply (call_tool_of_body c _ arguments log _) in H.
      rewrite H. do 2 eexists. split; [reflexivity|]. now left.
  - destruct (dict_lookup "urls" arguments) as [urls|];
      [destruct (py_len urls) as [n|e]|].
    + apply (call_tool_of_body c _ arguments log _) in H.
      rewrite H. do 2 eexists. split; [reflexivity|]. right. eauto.
    + apply (call_tool_of_body c _ arguments log _) in H.
      rewrite H. do 2 eexists. split; [reflexivity|]. now left.
    + apply (call_tool_of_body c _ arguments log _) in H.
      rewrite H. do 2 eexists. split; [reflexivity|]. now left.
  - apply (call_tool_of_body c _ arguments log _) in H.
    rewrite H. do 2 eexists. split; [reflexivity|]. now left.
Qed.

Lemma call_tool_body_raise_cases :
  forall (c : TavilyClient) (name : string) (arguments : dict)
         (log l : list call) (e : exn),
    call_tool_body c name arguments log = (Raise e, l) ->
    l = log
    /\ ((~ In name (map tool_name list_tools)
         /\ e = ValueError ("Unknown tool: " ++ name))
        \/ (exists t p, In t list_tools /\ tool_name t = name
                        /\ In p (tool_required t)
                        /\ dict_lookup p arguments = None
                        /\ e = KeyError (VStr p))
        \/ (name = "tavily_extract_content"
            /\ exists urls, dict_lookup "urls" arguments = Some urls
                            /\ sized urls = false
                            /\ e = TypeError ("object of type '" ++ type_name urls
                                              ++ "' has no len()"))).
Proof.
  intros c name arguments log l e Hraise.
  destruct (call_tool_body_cases c arguments log name)
    as [[-> H]|[[-> H]|[[-> H]|[[-> H]|[Hnot H]]]]].
  - destruct (dict_lookup "query" arguments) as [query|] eqn:Hq;
      rewrite H in Hraise; inversion Hraise; subst.
    split; [reflexivity|]. right; left.
    exists (nth 0 list_tools (Build_Tool EmptyString [] [])), "query".
    simpl. auto 6.
  - destruct (dict_lookup "query" arguments) as [query|] eqn:Hq;
      rewrite H in Hraise; inversion Hraise; subst.
    split; [reflexivity|]. right; left.
    exists (nth 1 list_tools (Build_Tool EmptyString [] [])), "query".
    simpl. auto 7.
  - destruct (dict_lookup "query" arguments) as [query|] eqn:Hq;
      rewrite H in Hraise; inversion Hraise; subst.
    split; [reflexivity|]. right; left.
    exists (nth 2 list_tools (Build_Tool EmptyString [] [])), "query".
    simpl. auto 8.
  - destruct (dict_lookup "urls" arguments) as [urls|] eqn:Hu.
    + pose proof (py_len_sized urls) as Hs.
      destruct (py_len urls) as [n|e0];
        rewrite H in Hraise; inversion Hraise; subst.
      destruct Hs as [Hs ->].
      split; [reflexivity|]. right; right. split; [reflexivity|].
      exists urls. auto.
    + rewrite H in Hraise; inversion Hraise; subst.
      split; [reflexivity|]. right; left.
      exists (nth 3 list_tools (Build_Tool EmptyString [] [])), "urls".
      simpl. auto 9.
  - rewrite H in Hraise. inversion Hraise; subst. auto.
Qed.

(** X2. The [except] clause of [call_tool] itself fires in three
    situations only, each before the client is reached: the name is not a
    registered tool ([ValueError]), a parameter the tool's schema requires
    is missing ([KeyError] on it), or [urls] is an object without a length
    ([TypeError] from [len]).  Every other fault is handled inside a
    handler. *)
Theorem call_tool_own_error_cases :
  forall (c : TavilyClient) (name : string) (arguments : dict)
         (log l : list call) (e : exn),
    call_tool_body c name arguments log = (Raise e, l) ->
    l = log
    /\ ((~ In name (map tool_name list_tools)
         /\ e = ValueError ("Unknown tool: " ++ name))
        \/ (exists t p, In t list_tools /\ tool_name t = name
                        /\ In p (tool_required t)
                        /\ dict_lookup p arguments = None
                        /\ e = KeyError (VStr p))
        \/ (name = "tavily_extract_content"
            /\ exists urls, dict_lookup "urls" arguments = Some urls
                            /\ sized urls = false
                            /\ e = TypeError ("object of type '" ++ type_name urls
                                              ++ "' has no len()"))).
Proof.
  exact call_tool_body_raise_cases.
Qed.

Lemma call_tool_own_error_cases_witness :
  [] = ([] : list call)
  /\ ((~ In "tavily_extract_content" (map tool_name list_tools)
       /\ TypeError "object of type 'int' has no len()"
          = ValueError ("Unknown tool: " ++ "tavily_extract_content"))
      \/ (exists t p, In t list_tools /\ tool_name t = "tavily_extract_content"
                      /\ In p (tool_required t)
                      /\ dict_lookup p [("urls", VInt 3)] = None
                      /\ TypeError "object of type 'int' has no len()"
                         = KeyError (VStr p))
      \/ ("tavily_extract_content" = "tavily_extract_content"
          /\ exists urls, dict_lookup "urls" [("urls", VInt 3)] = Some urls
                          /\ sized urls = false
                          /\ TypeError "object of type 'int' has no len()"
                             = TypeError ("object of type '" ++ type_name urls
                                          ++ "' has no len()"))).
Proof.
  apply (call_tool_own_error_cases quiet_client "tavily_extract_content"
           [("urls", VInt 3)] [] [] (TypeError "object of type 'int' has no len()")).
  reflexivity.
Defined.

(** X3. The dispatch and the registry agree: the names [list_tools]
    advertises are pairwise distinct, and [call_tool] treats a name as
    unknown exactly when [list_tools] does not advertise it. *)
Theorem advertised_tools_are_dispatched :
  NoDup (map tool_name list_tools)
  /\ forall (c : TavilyClient) (name : string) (arguments : dict) (log : list call),
       In name (map tool_name list_tools)
       <-> call_tool_body c name arguments log
           <> (Raise (ValueError ("Unknown tool: " ++ name)), log).
Proof.
  split.
  - simpl. repeat constructor; simpl; intuition discriminate.
  - intros c name arguments log. split.
    + intros Hin Heq.
      destruct (call_tool_body_raise_cases c name arguments log log _ Heq)
        as [_ [[Hnot _]|[(t & p & _ & _ & _ & _ & E)|[_ (u & _ & _ & E)]]]];
        [contradiction | discriminate E | discriminate E].
    + intros Hne.
      destruct (call_tool_body_cases c arguments log name)
        as [[-> _]|[[-> _]|[[-> _]|[[-> _]|[_ H]]]]];
        try (simpl; auto; fail).
      contradiction.
Qed.

(** ** Parameters reach the client under their schema names *)

Lemma logged_call (c : TavilyClient) (name : string) (arguments : dict)
    (log : list call) (r : result (list TextContent)) (k : call) :
  call_tool c name arguments log = (r, (log ++ [k])%list) ->
  (name = "tavily_search"
   /\ exists query, dict_lookup "query" arguments = Some query
                    /\ k = CallSearch (search_call arguments query))
  \/ (name = "tavily_qna_search"
      /\ exists query, dict_lookup "query" arguments = Some query
                       /\ k = CallQnaSearch query)
  \/ (name = "tavily_get_context"
      /\ exists query, dict_lookup "query" arguments = Some query
                       /\ k = CallGetSearchContext query
                              (dict_get arguments "max_tokens" (VInt 4000)))
  \/ (name = "tavily_extract_content"
      /\ exists urls, dict_lookup "urls" arguments = Some urls
                      /\ k = CallExtract urls
                             (dict_get arguments "include_images" (VBool false))).
Proof.
  intros Hcall.
  assert (Hno : forall x, call_tool c name arguments log = (x, log) -> False).
  { intros x Hx. rewrite Hx in Hcall. injection Hcall as _ Hl.
    exact (log_not_extended log k Hl). }
  assert (Hlast : forall x k', call_tool c name arguments log
                               = (x, (log ++ [k'])%list) -> k = k').
  { intros x k' Hx. rewrite Hx in Hcall. injection Hcall as _ Hl.
    apply app_inj_tail in Hl as [_ Hl]. now symmetry. }
  destruct (call_tool_body_cases c arguments log name)
    as [[-> H]|[[-> H]|[[-> H]|[[-> H]|[_ H]]]]].
  - left. split; [reflexivity|].
    destruct (dict_lookup "query" arguments) as [query|];
      apply (call_tool_of_body c _ arguments log _) in H.
    + exists query. split; [reflexivity | exact (Hlast _ _ H)].
    + destruct (Hno _ H).
  - right; left. split; [reflexivity|].
    destruct (dict_lookup "query" arguments) as [query|];
      apply (call_tool_of_body c _ arguments log _) in H.
    + exists query. split; [reflexivity | exact (Hlast _ _ H)].
    + destruct (Hno _ H).
  - right; right; left. split; [reflexivity|].
    destruct (dict_lookup "query" arguments) as [query|];
      apply (call_tool_of_body c _ arguments log _) in H.
    + exists query. split; [reflexivity | exact (Hlast _ _ H)].
    + destruct (Hno _ H).
  - right; right; right. split; [reflexivity|].
    destruct (dict_lookup "urls" arguments) as [urls|];
      [destruct (py_len urls) as [n|e]|];
      apply (call_tool_of_body c _ arguments log _) in H.
    + exists urls. split; [reflexivity | exact (Hlast _ _ H)].
    + destruct (Hno _ H).
    + destruct (Hno _ H).
  - apply (call_tool_of_body c _ arguments log _) in H. destruct (Hno _ H).
Qed.

(** X4. Whenever a call to a registered tool reaches the client, every
    parameter the tool's schema declares is handed over under its own
    name: the caller's value when there is one, the default the schema
    advertises when there is none (5 results, 4000 tokens, no images), and
    nothing for a domain filter that is missing or empty. *)
Theorem parameters_forwarded_under_schema_names :
  forall (c : TavilyClient) (t : Tool) (p : Property) (arguments : dict)
         (log : list call) (r : result (list TextContent)) (k : call),
    In t list_tools ->
    In p (tool_properties t) ->
    call_tool c (tool_name t) arguments log = (r, (log ++ [k])%list) ->
    call_param k (prop_name p) = forwarded arguments p.
Proof.
  intros c t p arguments log r k Ht Hp Hcall.
  apply logged_call in Hcall.
  simpl in Ht. destruct Ht as [E|[E|[E|[E|[]]]]]; subst t;
    cbn [tool_name tool_properties] in *;
    destruct Hcall as [[N H]|[[N H]|[[N H]|[N H]]]]; try discriminate N;
    destruct H as (v & Hv & ->);
    simpl in Hp;
    repeat (destruct Hp as [<-|Hp]; [|]); try destruct Hp;
    unfold forwarded, search_call, search_params_of, dict_get;
    cbn [prop_name prop_default plain_property call_param String.eqb Ascii.eqb
         Bool.eqb domain_filter orb andb sp_query sp_max_results
         sp_include_domains sp_exclude_domains];
    try rewrite Hv; try reflexivity.
  - destruct (dict_lookup "max_results" arguments); reflexivity.
  - destruct (dict_lookup "include_domains" arguments) as [x|]; [|reflexivity].
    destruct (truthy x); reflexivity.
  - destruct (dict_lookup "exclude_domains" arguments) as [x|]; [|reflexivity].
    destruct (truthy x); reflexivity.
  - destruct (dict_lookup "max_tokens" arguments); reflexivity.
  - destruct (dict_lookup "include_images" arguments); reflexivity.
Qed.

Lemma parameters_forwarded_under_schema_names_witness :
  call_param
    (CallSearch (search_call [("query", VStr "x"); ("include_domains", VList [])]
                             (VStr "x")))
    "max_results"
  = Some (VInt 5).
Proof.
  exact (parameters_forwarded_under_schema_names quiet_client
           (nth 0 list_tools (Build_Tool EmptyString [] []))
           (nth 1 (tool_properties (nth 0 list_tools (Build_Tool EmptyString [] [])))
                (plain_property EmptyString EmptyString))
           [("query", VStr "x"); ("include_domains", VList [])] []
           (Ok [text_content "No search results found."])
           (CallSearch (search_call [("query", VStr "x"); ("include_domains", VList [])]
                                    (VStr "x")))
           (or_introl eq_refl) (or_intror (or_introl eq_refl)) eq_refl).
Defined.

(** ** Question answering *)

(** X5. When the client answers a question, whatever object the answer
    is, the response of [tavily_qna_search] holds the question, the answer
    as [str] renders it and the fixed note on web sources; it is not a
    failure text, and the client was asked once, with the question. *)
Theorem qna_answer_is_reported :
  forall (c : TavilyClient) (arguments : dict) (query answer : value)
         (log : list call),
    dict_lookup "query" arguments = Some query ->
    qna_search c query = Ok answer ->
    exists t : string,
      call_tool c "tavily_qna_search" arguments log
      = (Ok [text_content t], (log ++ [CallQnaSearch query])%list)
      /\ occurs_in (dq ++ py_str query ++ dq) t
      /\ occurs_in ("**Answer:** " ++ py_str answer) t
      /\ occurs_in
           "**Note:** This answer is generated from web sources and optimized for factual accuracy."
           t
      /\ is_failure_text t = false.
Proof.
  intros c arguments query answer log Hq Hans.
  exists (qna_report query answer). split.
  - unfold call_tool, try_except.
    change (call_tool_body c "tavily_qna_search" arguments)
      with (handle_qna_search c arguments).
    rewrite (handle_qna_search_run c arguments log query Hq).
    unfold qna_text. rewrite Hans. reflexivity.
  - unfold qna_report. repeat split; try find_occurrence.
Qed.

Lemma qna_answer_is_reported_witness :
  exists t : string,
    call_tool quiet_client "tavily_qna_search"
      [("query", VStr "capital of France")] []
    = (Ok [text_content t], [CallQnaSearch (VStr "capital of France")])
    /\ occurs_in (dq ++ "capital of France" ++ dq) t
    /\ occurs_in "**Answer:** Paris" t
    /\ occurs_in
         "**Note:** This answer is generated from web sources and optimized for factual accuracy."
         t
    /\ is_failure_text t = false.
Proof.
  exact (qna_answer_is_reported quiet_client [("query", VStr "capital of France")]
           (VStr "capital of France") (VStr "Paris") [] eq_refl eq_refl).
Defined.

(** ** Edges of the extraction and search handlers *)

(** X6. When [urls] is an object without a length ([None], a [bool], an
    [int], a [float]), [tavily_extract_content] fails before its own [try]
    block: the response is ["Error: object of type '...' has no len()"],
    written by [call_tool], and the client is not invoked. *)
Theorem extract_rejects_unsized_urls :
  forall (c : TavilyClient) (arguments : dict) (urls : value) (log : list call),
    dict_lookup "urls" arguments = Some urls ->
    sized urls = false ->
    call_tool c "tavily_extract_content" arguments log
    = (Ok [text_content ("Error: object of type '" ++ type_name urls
                         ++ "' has no len()")], log).
Proof.
  intros c arguments urls log Hu Hs.
  pose proof (py_len_sized urls) as Hlen.
  destruct (call_tool_body_cases c arguments log "tavily_extract_content")
    as [[N _]|[[N _]|[[N _]|[[_ H]|[Hnot _]]]]]; try discriminate N.
  - rewrite Hu in H. destruct (py_len urls) as [n|e].
    + congruence.
    + destruct Hlen as [_ ->].
      apply (call_tool_of_body c _ arguments log _) in H. exact H.
  - exfalso. apply Hnot. simpl. auto.
Qed.

Lemma extract_rejects_unsized_urls_witness :
  call_tool quiet_client "tavily_extract_content" [("urls", VNone)] []
  = (Ok [text_content ("Error: object of type '" ++ type_name VNone
                       ++ "' has no len()")], []).
Proof.
  exact (extract_rejects_unsized_urls quiet_client [("urls", VNone)] VNone []
           eq_refl eq_refl).
Defined.

(** X7. A search whose answer is a [dict] without the key [results] is
    reported as ["No search results found."], whatever [max_results] is:
    the slice is never taken, so even a [max_results] that no slice accepts
    does no harm. *)
Theorem search_without_results_key :
  forall (c : TavilyClient) (arguments : dict) (query : value) (response : dict)
         (log : list call),
    dict_lookup "query" arguments = Some query ->
    search c (search_call arguments query) = Ok (VDict response) ->
    dict_lookup "results" response = None ->
    call_tool c "tavily_search" arguments log
    = (Ok [text_content "No search results found."],
       (log ++ [CallSearch (search_call arguments query)])%list).
Proof.
  intros c arguments query response log Hq Hans Hres.
  unfold call_tool, try_except.
  change (call_tool_body c "tavily_search" arguments)
    with (handle_search c arguments).
  rewrite (handle_search_run c arguments log query Hq).
  unfold search_text. rewrite Hans. cbn [rbind].
  unfold search_results, contains. rewrite Hres. reflexivity.
Qed.

Lemma search_without_results_key_witness :
  call_tool idle_client "tavily_search"
    [("query", VStr "x"); ("max_results", VStr "many")] []
  = (Ok [text_content "No search results found."],
     ([] ++ [CallSearch (search_call [("query", VStr "x"); ("max_results", VStr "many")]
                                     (VStr "x"))])%list).
Proof.
  exact (search_without_results_key idle_client
           [("query", VStr "x"); ("max_results", VStr "many")] (VStr "x") [] []
           eq_refl eq_refl eq_refl).
Defined.

(** ** How many records a search renders, and in which order *)

(** X8. For a search that goes through with a list of records, the slice
    [[:max_results]] alone decides what is rendered: the first records up
    to the stop.  An explicit [None] keeps every record, and a negative
    value [-m] drops the last [m] records, all of them when fewer were
    returned. *)
Theorem search_block_count :
  forall (c : TavilyClient) (arguments : dict) (query : value) (response : dict)
         (records : list dict) (stop : option Z) (log : list call),
    dict_lookup "query" arguments = Some query ->
    slice_stop (dict_get arguments "max_results" (VInt 5)) = Ok stop ->
    search c (search_call arguments query) = Ok (VDict response) ->
    dict_lookup "results" response = Some (VList (map VDict records)) ->
    exists blocks : list string,
      blocks = numbered_blocks record_block
                 (firstn (slice_count (length records) stop) records)
      /\ call_tool c "tavily_search" arguments log
         = (Ok [text_content (match blocks with
                              | [] => "No search results found."
                              | _ => search_report query blocks
                              end)],
            (log ++ [CallSearch (search_call arguments query)])%list)
      /\ (stop = None -> length blocks = length records)
      /\ (forall n, stop = Some n -> (n < 0)%Z ->
            length blocks = Z.to_nat (Z.of_nat (length records) + n)).
Proof.
  intros c arguments query response records stop log Hq Hstop Hans Hres.
  eexists. split; [reflexivity|].
  assert (Hlen : length (numbered_blocks record_block
                           (firstn (slice_count (length records) stop) records))
                 = Nat.min (slice_count (length records) stop) (length records)).
  { unfold numbered_blocks. now rewrite numbered_from_length, length_firstn. }
  split; [|split].
  - unfold call_tool, try_except.
    change (call_tool_body c "tavily_search" arguments)
      with (handle_search c arguments).
    rewrite (handle_search_run c arguments log query Hq).
    unfold search_text. rewrite Hans. cbn [rbind].
    rewrite (search_results_of_records response records _ stop Hres Hstop).
    destruct (numbered_blocks _ _); reflexivity.
  - intros ->. rewrite Hlen. cbn [slice_count]. lia.
  - intros n -> Hneg. rewrite Hlen. cbn [slice_count].
    destruct (Z.ltb_spec n 0) as [_|Hge]; lia.
Qed.

Lemma search_block_count_witness :
  exists blocks : list string,
    blocks = numbered_blocks record_block
               (firstn (slice_count 3 (Some (-2)%Z))
                  [sample_fields "a"; sample_fields "b"; sample_fields "c"])
    /\ call_tool three_records_client "tavily_search"
         [("query", VStr "x"); ("max_results", VInt (-2))] []
       = (Ok [text_content (match blocks with
                            | [] => "No search results found."
                            | _ => search_report (VStr "x") blocks
                            end)],
          ([] ++ [CallSearch (search_call
                                [("query", VStr "x"); ("max_results", VInt (-2))]
                                (VStr "x"))])%list)
    /\ (Some (-2)%Z = None -> length blocks = 3)
    /\ (forall n, Some (-2)%Z = Some n -> (n < 0)%Z ->
          length blocks = Z.to_nat (Z.of_nat 3 + n)).
Proof.
  exact (search_block_count three_records_client
           [("query", VStr "x"); ("max_results", VInt (-2))] (VStr "x")
           [("results",
             VList [sample_record "a"; sample_record "b"; sample_record "c"])]
           [sample_fields "a"; sample_fields "b"; sample_fields "c"]
           (Some (-2)%Z) [] eq_refl eq_refl eq_refl eq_refl).
Defined.

Lemma slice_stop_error (n : value) (e : exn) :
  slice_stop n = Raise e ->
  e = TypeError "slice indices must be integers or None or have an __index__ method".
Proof.
  destruct n; simpl; intros H; inversion H; reflexivity.
Qed.

(** X9. A [max_results] that cannot be the stop of a slice (a text, a
    [float], a list, a [dict]) is only found out after the client has been
    called: when the answer has a list under [results], the response is
    ["Search failed: slice indices must be integers ..."], and the search
    call, carrying that [max_results], has been made. *)
Theorem search_rejects_unusable_max_results :
  forall (c : TavilyClient) (arguments : dict) (query : value) (response : dict)
         (items : list value) (e : exn) (log : list call),
    dict_lookup "query" arguments = Some query ->
    slice_stop (dict_get arguments "max_results" (VInt 5)) = Raise e ->
    search c (search_call arguments query) = Ok (VDict response) ->
    dict_lookup "results" response = Some (VList items) ->
    call_tool c "tavily_search" arguments log
    = (Ok [text_content
             "Search failed: slice indices must be integers or None or have an __index__ method"],
       (log ++ [CallSearch (search_call arguments query)])%list)
    /\ sp_max_results (search_call arguments query)
       = dict_get arguments "max_results" (VInt 5).
Proof.
  intros c arguments query response items e log Hq Hstop Hans Hres.
  split; [|reflexivity].
  unfold call_tool, try_except.
  change (call_tool_body c "tavily_search" arguments)
    with (handle_search c arguments).
  rewrite (handle_search_run c arguments log query Hq).
  unfold search_text. rewrite Hans. cbn [rbind].
  unfold search_results, contains, getitem, dict_getitem, slice_to.
  rewrite Hres. cbn [rbind]. rewrite Hstop. cbn [rbind].
  rewrite (slice_stop_error _ e Hstop). reflexivity.
Qed.

Lemma search_rejects_unusable_max_results_witness :
  call_tool quiet_client "tavily_search"
    [("query", VStr "x"); ("max_results", VStr "5")] []
  = (Ok [text_content
           "Search failed: slice indices must be integers or None or have an __index__ method"],
     ([] ++ [CallSearch (search_call [("query", VStr "x"); ("max_results", VStr "5")]
                                     (VStr "x"))])%list)
  /\ sp_max_results (search_call [("query", VStr "x"); ("max_results", VStr "5")]
                                 (VStr "x"))
     = dict_get [("query", VStr "x"); ("max_results", VStr "5")] "max_results" (VInt 5).
Proof.
  exact (search_rejects_unusable_max_results quiet_client
           [("query", VStr "x"); ("max_results", VStr "5")] (VStr "x")
           [("results", VList [])] []
           (TypeError
              "slice indices must be integers or None or have an __index__ method")
           [] eq_refl eq_refl eq_refl eq_refl).
Defined.

Lemma str_prefixb_cancel (a p s : string) :
  str_prefixb (a ++ p) (a ++ s) = str_prefixb p s.
Proof.
  induction a as [|x a IH]; simpl; [reflexivity|].
  now rewrite Ascii.eqb_refl, IH.
Qed.

Lemma numbered_from_nth (block : nat -> dict -> string) (l : list dict) :
  forall start i d,
    nth_error l i = Some d ->
    nth_error (numbered_from start block l) i = Some (block (start + i) d).
Proof.
  induction l as [|x l IH]; intros start i d H.
  - destruct i; discriminate H.
  - destruct i as [|i].
    + inversion H; subst. unfold numbered_from. cbn. now rewrite Nat.add_0_r.
    + unfold numbered_from in *. cbn [enumerate_from map nth_error].
      rewrite (IH (S start) i d H). f_equal. f_equal. lia.
Qed.

(** X10. The blocks of a search follow the order of the client's answer
    and are numbered from 1: the record at position [i] (from 0), when the
    slice keeps it, is rendered as the block at position [i], and that
    block opens with the heading [**Result i+1:**]. *)
Theorem search_blocks_follow_answer_order :
  forall (response : dict) (records : list dict) (max_results : value)
         (stop : option Z) (i : nat) (d : dict),
    dict_lookup "results" response = Some (VList (map VDict records)) ->
    slice_stop max_results = Ok stop ->
    nth_error records i = Some d ->
    i < slice_count (length records) stop ->
    exists blocks : list string,
      search_results (VDict response) max_results = Ok blocks
      /\ nth_error blocks i = Some (record_block (S i) d)
      /\ str_prefixb (nl ++ "**Result " ++ dec_nat (S i) ++ ":**" ++ nl)
                     (record_block (S i) d) = true.
Proof.
  intros response records max_results stop i d Hres Hstop Hnth Hi.
  eexists. split; [apply (search_results_of_records _ _ _ _ Hres Hstop)|]. split.
  - unfold numbered_blocks. apply (numbered_from_nth record_block _ 1 i d).
    rewrite nth_error_firstn.
    destruct (Nat.ltb_spec i (slice_count (length records) stop)); [exact Hnth | lia].
  - unfold record_block. rewrite !str_prefixb_cancel. apply str_prefixb_app.
Qed.

Lemma search_blocks_follow_answer_order_witness :
  exists blocks : list string,
    search_results
      (VDict [("results",
               VList [sample_record "a"; sample_record "b"; sample_record "c"])])
      (VInt 2) = Ok blocks
    /\ nth_error blocks 1 = Some (record_block 2 (sample_fields "b"))
    /\ str_prefixb (nl ++ "**Result " ++ dec_nat 2 ++ ":**" ++ nl)
                   (record_block 2 (sample_fields "b")) = true.
Proof.
  apply (search_blocks_follow_answer_order
           [("results",
             VList [sample_record "a"; sample_record "b"; sample_record "c"])]
           [sample_fields "a"; sample_fields "b"; sample_fields "c"]
           (VInt 2) (Some 2%Z) 1 (sample_fields "b"));
    try reflexivity.
  simpl. lia.
Defined.

(** ** Answers that do not have the documented shape *)

Lemma rmap_enumerated_fails (f : nat -> value -> result string)
    (block : nat -> dict -> string) (good : list dict) (bad : value)
    (rest : list value) (e : exn) :
  Forall (fun d => forall i, f i (VDict d) = Ok (block i d)) good ->
  (forall i, f i bad = Raise e) ->
  forall start,
    rmap_list (fun p => f (fst p) (snd p))
      (enumerate_from start (map VDict good ++ bad :: rest)%list)
    = Raise e.
Proof.
  intros Hgood Hbad. induction Hgood as [|d l Hd _ IH]; intros start.
  - cbn [map app enumerate_from rmap_list fst snd]. rewrite Hbad. reflexivity.
  - cbn [map app enumerate_from rmap_list fst snd].
    rewrite Hd. cbn [rbind]. rewrite IH. reflexivity.
Qed.

Lemma format_search_result_not_dict (i : nat) (item : value) :
  is_dict item = false ->
  format_search_result i item
  = Raise (AttributeError (sq ++ type_name item ++ "' object has no attribute 'get'")).
Proof.
  destruct item; intros H; try discriminate H; reflexivity.
Qed.

Lemma firstn_past_prefix (k : nat) (good : list dict) (bad : value)
    (rest : list value) :
  length good < k ->
  firstn k (map VDict good ++ bad :: rest)%list
  = (map VDict good ++ bad :: firstn (k - S (length good)) rest)%list.
Proof.
  intros Hk. unfold dict in *. rewrite firstn_app, length_map.
  rewrite (@firstn_all2 _ k (map VDict good)) by (rewrite length_map; lia).
  replace (k - length good) with (S (k - S (length good))) by lia.
  reflexivity.
Qed.

Lemma firstn_within_prefix (k : nat) (good : list dict) (bad : value)
    (rest : list value) :
  k <= length good ->
  firstn k (map VDict good ++ bad :: rest)%list = map VDict (firstn k good).
Proof.
  intros Hk. unfold dict in *. rewrite firstn_app, length_map.
  replace (k - length good) with 0 by lia.
  rewrite firstn_0, app_nil_r. apply firstn_map.
Qed.

(** X11. One entry of [results] that is not a [dict] and lies within the
    slice makes the whole search fail, even when every record before it is
    fine: nothing of the listing is returned and the response is
    ["Search failed: '...' object has no attribute 'get'"]. *)
Theorem malformed_record_fails_whole_search :
  forall (c : TavilyClient) (arguments : dict) (query : value) (response : dict)
         (good : list dict) (bad : value) (rest : list value) (stop : option Z)
         (log : list call),
    dict_lookup "query" arguments = Some query ->
    slice_stop (dict_get arguments "max_results" (VInt 5)) = Ok stop ->
    search c (search_call arguments query) = Ok (VDict response) ->
    dict_lookup "results" response
    = Some (VList (map VDict good ++ bad :: rest)%list) ->
    is_dict bad = false ->
    length good < slice_count (length (map VDict good ++ bad :: rest)%list) stop ->
    call_tool c "tavily_search" arguments log
    = (Ok [text_content ("Search failed: '" ++ type_name bad
                         ++ "' object has no attribute 'get'")],
       (log ++ [CallSearch (search_call arguments query)])%list).
Proof.
  intros c arguments query response good bad rest stop log
         Hq Hstop Hans Hres Hbad Hk.
  unfold call_tool, try_except.
  change (call_tool_body c "tavily_search" arguments)
    with (handle_search c arguments).
  rewrite (handle_search_run c arguments log query Hq).
  unfold search_text. rewrite Hans. cbn [rbind].
  unfold search_results, contains, getitem, dict_getitem, slice_to.
  rewrite Hres. cbn [rbind]. rewrite Hstop. cbn [rbind iterate].
  rewrite (firstn_past_prefix _ good bad rest Hk).
  unfold format_enumerated.
  rewrite (rmap_enumerated_fails format_search_result record_block good bad _
             (AttributeError (sq ++ type_name bad
                              ++ "' object has no attribute 'get'"))).
  - reflexivity.
  - apply Forall_forall. intros d _ i. apply format_search_result_dict.
  - intros i. now apply format_search_result_not_dict.
Qed.

Lemma malformed_record_fails_whole_search_witness :
  call_tool (listing_client [sample_record "a"; VStr "b"; sample_record "c"])
    "tavily_search" [("query", VStr "x")] []
  = (Ok [text_content ("Search failed: '" ++ type_name (VStr "b")
                       ++ "' object has no attribute 'get'")],
     ([] ++ [CallSearch (search_call [("query", VStr "x")] (VStr "x"))])%list).
Proof.
  apply (malformed_record_fails_whole_search
           (listing_client [sample_record "a"; VStr "b"; sample_record "c"])
           [("query", VStr "x")] (VStr "x")
           [("results", VList [sample_record "a"; VStr "b"; sample_record "c"])]
           [sample_fields "a"] (VStr "b") [sample_record "c"] (Some 5%Z) []);
    try reflexivity.
  simpl. lia.
Defined.

(** X12. An entry of [results] that is not a [dict] does no harm when the
    slice stops before it: the search renders the records kept, as if the
    malformed entry had not been returned. *)
Theorem malformed_record_beyond_slice_is_harmless :
  forall (response : dict) (good : list dict) (bad : value) (rest : list value)
         (max_results : value) (stop : option Z),
    dict_lookup "results" response
    = Some (VList (map VDict good ++ bad :: rest)%list) ->
    slice_stop max_results = Ok stop ->
    slice_count (length (map VDict good ++ bad :: rest)%list) stop <= length good ->
    search_results (VDict response) max_results
    = Ok (numbered_blocks record_block
            (firstn (slice_count (length (map VDict good ++ bad :: rest)%list) stop)
                    good)).
Proof.
  intros response good bad rest max_results stop Hres Hstop Hk.
  unfold search_results, contains, getitem, dict_getitem, slice_to.
  rewrite Hres. cbn [rbind]. rewrite Hstop. cbn [rbind iterate].
  rewrite (firstn_within_prefix _ good bad rest Hk).
  apply format_enumerated_dicts.
  apply Forall_forall. intros d _ i. apply format_search_result_dict.
Qed.

Lemma malformed_record_beyond_slice_is_harmless_witness :
  search_results
    (VDict [("results", VList [sample_record "a"; VNone; sample_record "c"])])
    (VInt 1)
  = Ok (numbered_blocks record_block (firstn 1 [sample_fields "a"])).
Proof.
  apply (malformed_record_beyond_slice_is_harmless
           [("results", VList [sample_record "a"; VNone; sample_record "c"])]
           [sample_fields "a"] VNone [sample_record "c"] (VInt 1) (Some 1%Z));
    [reflexivity | reflexivity | simpl; lia].
Defined.

(** X13. When the client returns as context anything but a text, the
    handler fails while formatting, after the client has been called: the
    response is ["Context retrieval failed: '...' object has no attribute
    'split'"]. *)
Theorem context_rejects_non_text :
  forall (c : TavilyClient) (arguments : dict) (query context : value)
         (log : list call),
    dict_lookup "query" arguments = Some query ->
    get_search_context c query (dict_get arguments "max_tokens" (VInt 4000))
    = Ok context ->
    is_text context = false ->
    call_tool c "tavily_get_context" arguments log
    = (Ok [text_content ("Context retrieval failed: '" ++ type_name context
                         ++ "' object has no attribute 'split'")],
       (log ++ [CallGetSearchContext query
                  (dict_get arguments "max_tokens" (VInt 4000))])%list).
Proof.
  intros c arguments query context log Hq Hans Htext.
  unfold call_tool, try_except.
  change (call_tool_body c "tavily_get_context" arguments)
    with (handle_get_context c arguments).
  rewrite (handle_get_context_run c arguments log query Hq).
  unfold context_text. rewrite Hans. cbn [rbind].
  destruct context; try discriminate Htext; reflexivity.
Qed.

Lemma context_rejects_non_text_witness :
  call_tool (listing_client []) "tavily_get_context" [("query", VStr "x")] []
  = (Ok [text_content ("Context retrieval failed: '"
                       ++ type_name (VList [VStr "not"; VStr "a text"])
                       ++ "' object has no attribute 'split'")],
     ([] ++ [CallGetSearchContext (VStr "x")
               (dict_get [("query", VStr "x")] "max_tokens" (VInt 4000))])%list).
Proof.
  exact (context_rejects_non_text (listing_client []) [("query", VStr "x")]
           (VStr "x") (VList [VStr "not"; VStr "a text"]) []
           eq_refl eq_refl eq_refl).
Defined.

Lemma format_extract_result_unsized (include_images : value) (i : nat)
    (d : dict) (v : value) :
  dict_lookup "raw_content" d = Some v ->
  sized v = false ->
  format_extract_result include_images i (VDict d)
  = Raise (TypeError (sq ++ type_name v ++ "' object is not subscriptable")).
Proof.
  intros Hv Hs. unfold format_extract_result, method_get, dict_get.
  rewrite Hv. destruct v; try discriminate Hs; reflexivity.
Qed.

(** X14. A page whose [raw_content] is there but is [None] (or a number)
    makes the whole extraction fail, unlike a page without the key, which
    is rendered with an empty preview: even after well-formed pages, the
    response is ["Content extraction failed: '...' object is not
    subscriptable"]. *)
Theorem null_raw_content_fails_extraction :
  forall (c : TavilyClient) (arguments : dict) (urls : value) (n : nat)
         (response : dict) (good : list dict) (page : dict) (v : value)
         (rest : list value) (log : list call),
    dict_lookup "urls" arguments = Some urls ->
    py_len urls = Ok n ->
    extract c urls (dict_get arguments "include_images" (VBool false))
    = Ok (VDict response) ->
    dict_lookup "results" response
    = Some (VList (map VDict good ++ VDict page :: rest)%list) ->
    Forall page_shape good ->
    dict_lookup "raw_content" page = Some v ->
    sized v = false ->
    call_tool c "tavily_extract_content" arguments log
    = (Ok [text_content ("Content extraction failed: '" ++ type_name v
                         ++ "' object is not subscriptable")],
       (log ++ [CallExtract urls
                  (dict_get arguments "include_images" (VBool false))])%list).
Proof.
  intros c arguments urls n response good page v rest log
         Hu Hn Hans Hres Hgood Hv Hs.
  unfold call_tool, try_except.
  change (call_tool_body c "tavily_extract_content" arguments)
    with (handle_extract_content c arguments).
  rewrite (handle_extract_content_run c arguments log urls n Hu Hn).
  unfold extract_text. rewrite Hans. cbn [rbind].
  unfold extract_results, contains, getitem, dict_getitem.
  rewrite Hres. cbn [rbind iterate]. unfold format_enumerated.
  rewrite (rmap_enumerated_fails
             (format_extract_result (dict_get arguments "include_images" (VBool false)))
             (page_block (dict_get arguments "include_images" (VBool false)))
             good (VDict page) rest
             (TypeError (sq ++ type_name v ++ "' object is not subscriptable"))).
  - reflexivity.
  - eapply Forall_impl; [|exact Hgood].
    intros d Hd i. now apply format_extract_result_dict.
  - intros i. now apply format_extract_result_unsized.
Qed.

Lemma null_raw_content_fails_extraction_witness :
  call_tool (listing_client [VDict short_page; VDict [("raw_content", VNone)]])
    "tavily_extract_content" [("urls", VList (sample_urls 2))] []
  = (Ok [text_content ("Content extraction failed: '" ++ type_name VNone
                       ++ "' object is not subscriptable")],
     ([] ++ [CallExtract (VList (sample_urls 2))
               (dict_get [("urls", VList (sample_urls 2))] "include_images"
                         (VBool false))])%list).
Proof.
  apply (null_raw_content_fails_extraction
           (listing_client [VDict short_page; VDict [("raw_content", VNone)]])
           [("urls", VList (sample_urls 2))] (VList (sample_urls 2)) 2
           [("results", VList [VDict short_page; VDict [("raw_content", VNone)]])]
           [short_page] [("raw_content", VNone)] VNone [] []);
    try reflexivity.
  constructor; [|constructor].
  split; right; eexists; reflexivity.
Defined.

(** ** Failure texts are reliable markers *)

(** X15. A response built without any exception never begins with one of
    the five failure prefixes: whenever the client answers and the
    formatting of a handler completes, the text [call_tool] returns is the
    formatted one and [is_failure_text] rejects it.  So a caller can tell a
    failure from a result by the prefix alone. *)
Theorem success_is_never_a_failure_text :
  forall (c : TavilyClient) (arguments : dict) (log : list call),
    (forall query response blocks,
        dict_lookup "query" arguments = Some query ->
        search c (search_call arguments query) = Ok response ->
        search_results response (dict_get arguments "max_results" (VInt 5))
        = Ok blocks ->
        exists t l,
          call_tool c "tavily_search" arguments log = (Ok [text_content t], l)
          /\ is_failure_text t = false)
    /\ (forall query answer,
           dict_lookup "query" arguments = Some query ->
           qna_search c query = Ok answer ->
           exists t l,
             call_tool c "tavily_qna_search" arguments log = (Ok [text_content t], l)
             /\ is_failure_text t = false)
    /\ (forall query context report,
           dict_lookup "query" arguments = Some query ->
           get_search_context c query (dict_get arguments "max_tokens" (VInt 4000))
           = Ok context ->
           context_report query context (dict_get arguments "max_tokens" (VInt 4000))
           = Ok report ->
           call_tool c "tavily_get_context" arguments log
           = (Ok [text_content report],
              (log ++ [CallGetSearchContext query
                         (dict_get arguments "max_tokens" (VInt 4000))])%list)
           /\ is_failure_text report = false)
    /\ (forall urls n response results failed_results,
           dict_lookup "urls" arguments = Some urls ->
           py_len urls = Ok n ->
           extract c urls (dict_get arguments "include_images" (VBool false))
           = Ok response ->
           extract_results response (dict_get arguments "include_images" (VBool false))
           = Ok results ->
           extract_failed response = Ok failed_results ->
           call_tool c "tavily_extract_content" arguments log
           = (Ok [text_content (extract_report results failed_results)],
              (log ++ [CallExtract urls
                         (dict_get arguments "include_images" (VBool false))])%list)
           /\ is_failure_text (extract_report results failed_results) = false).
Proof.
  intros c arguments log. split; [|split; [|split]].
  - intros query response blocks Hq Hans Hres.
    unfold call_tool, try_except.
    change (call_tool_body c "tavily_search" arguments)
      with (handle_search c arguments).
    rewrite (handle_search_run c arguments log query Hq).
    unfold search_text. rewrite Hans. cbn [rbind]. rewrite Hres.
    destruct blocks; do 2 eexists; split; reflexivity.
  - intros query answer Hq Hans.
    unfold call_tool, try_except.
    change (call_tool_body c "tavily_qna_search" arguments)
      with (handle_qna_search c arguments).
    rewrite (handle_qna_search_run c arguments log query Hq).
    unfold qna_text. rewrite Hans. do 2 eexists; split; reflexivity.
  - intros query context report Hq Hans Hrep.
    unfold call_tool, try_except.
    change (call_tool_body c "tavily_get_context" arguments)
      with (handle_get_context c arguments).
    rewrite (handle_get_context_run c arguments log query Hq).
    unfold context_text. rewrite Hans. cbn [rbind]. rewrite Hrep.
    split; [reflexivity|].
    unfold context_report in Hrep.
    destruct (method_split context); cbn [rbind] in Hrep; inversion Hrep.
    reflexivity.
  - intros urls n response results failed_results Hu Hn Hans Hres Hfail.
    unfold call_tool, try_except.
    change (call_tool_body c "tavily_extract_content" arguments)
      with (handle_extract_content c arguments).
    rewrite (handle_extract_content_run c arguments log urls n Hu Hn).
    unfold extract_text. rewrite Hans. cbn [rbind]. rewrite Hres. cbn [rbind].
    rewrite Hfail. split; reflexivity.
Qed.

(** ** [split] undoes [join] *)

Lemma split_from_word (w : string) :
  forall cur rest,
    no_space w = true ->
    split_from cur (w ++ rest) = split_from (cur ++ w) rest.
Proof.
  induction w as [|ch w IH]; intros cur rest Hw.
  - simpl. now rewrite str_app_nil_r.
  - simpl in Hw. apply andb_prop in Hw as [Hch Hw].
    apply negb_true_iff in Hch.
    cbn [append split_from]. rewrite Hch.
    rewrite (IH _ rest Hw), str_app_assoc. reflexivity.
Qed.

(** X16. [str.split()], as the context handler uses it to count words,
    undoes a join on single spaces: splitting the text made of words that
    are non-empty and free of whitespace, joined by [" "], gives back
    exactly those words, so the count reported is their number. *)
Theorem split_undoes_join :
  forall ws : list string,
    Forall (fun w => w <> EmptyString /\ no_space w = true) ws ->
    str_split (str_join " " ws) = ws
    /\ length (str_split (str_join " " ws)) = length ws.
Proof.
  intros ws Hws.
  assert (H : str_split (str_join " " ws) = ws); [|now rewrite H].
  induction Hws as [|w ws [Hne Hw] Hws IH]; [reflexivity|].
  destruct ws as [|w2 ws].
  - cbn [str_join]. unfold str_split.
    rewrite <- (str_app_nil_r w) at 1.
    rewrite (split_from_word w EmptyString EmptyString Hw).
    cbn [append split_from]. destruct w; [contradiction | reflexivity].
  - change (str_join " " (w :: w2 :: ws))
      with (w ++ " " ++ str_join " " (w2 :: ws)).
    unfold str_split in *.
    rewrite (split_from_word w EmptyString _ Hw).
    cbn [append split_from]. change (is_space " ") with true. cbv iota.
    destruct w; [contradiction|]. now rewrite IH.
Qed.

Lemma split_undoes_join_witness :
  str_split (str_join " " ["multiple"; "web"; "sources"]) = ["multiple"; "web"; "sources"]
  /\ length (str_split (str_join " " ["multiple"; "web"; "sources"]))
     = length ["multiple"; "web"; "sources"].
Proof.
  apply (split_undoes_join ["multiple"; "web"; "sources"]).
  repeat constructor; discriminate.
Defined.

(** ** The connection test of [main] *)

(** X17. The connection test at the start of [main] asks the client one
    question, ["test"], and lets nothing escape: whether the client answers
    or raises, the test completes and the server goes on to start. *)
Theorem main_probe_never_raises :
  forall (c : TavilyClient) (log : list call),
    main_probe c log = (Ok tt, (log ++ [CallQnaSearch (VStr "test")])%list).
Proof.
  intros c log. unfold main_probe, try_except, bind, invoke, ret.
  cbn [client_answer]. destruct (qna_search c (VStr "test")); reflexivity.
Qed.

(** * The calculator service *)

Lemma lower_char_idempotent (ch : ascii) : lower_char (lower_char ch) = lower_char ch.
Proof.
  destruct ch as [[] [] [] [] [] [] [] []]; reflexivity.
Qed.

Lemma str_lower_idempotent (s : string) : str_lower (str_lower s) = str_lower s.
Proof.
  induction s as [|ch s IH]; simpl; [reflexivity|].
  now rewrite lower_char_idempotent, IH.
Qed.

(** X18. The operation of a calculation is read without regard to case:
    two requests whose operations have the same lower-case form, that form
    being one of the four supported, get the same outcome on the same
    operands, the detail text included. *)
Theorem calculate_ignores_case :
  forall (float_str : float -> string) (op1 op2 : string) (x y : float),
    str_lower op1 = str_lower op2 ->
    In (str_lower op1) Calculator.supported_operations ->
    Calculator.calculate float_str
      {| Calculator.operation := op1; Calculator.a := x; Calculator.b := y |}
    = Calculator.calculate float_str
        {| Calculator.operation := op2; Calculator.a := x; Calculator.b := y |}.
Proof.
  intros float_str op1 op2 x y Hsame Hin.
  unfold Calculator.calculate.
  cbn [Calculator.operation Calculator.a Calculator.b].
  rewrite <- Hsame.
  destruct (String.eqb_spec (str_lower op1) "add"); [reflexivity|].
  destruct (String.eqb_spec (str_lower op1) "subtract"); [reflexivity|].
  destruct (String.eqb_spec (str_lower op1) "multiply"); [reflexivity|].
  destruct (String.eqb_spec (str_lower op1) "divide"); [reflexivity|].
  exfalso. simpl in Hin. intuition congruence.
Qed.

Lemma calculate_ignores_case_witness :
  Calculator.calculate (fun _ => "x")
    {| Calculator.operation := "MultiPLY"; Calculator.a := 1.5%float;
       Calculator.b := 4%float |}
  = Calculator.calculate (fun _ => "x")
      {| Calculator.operation := "multiply"; Calculator.a := 1.5%float;
         Calculator.b := 4%float |}.
Proof.
  apply (calculate_ignores_case (fun _ => "x") "MultiPLY" "multiply").
  - reflexivity.
  - simpl. auto.
Defined.

(** X19. A calculation succeeds exactly when the lower-case form of the
    operation is one of add, subtract, multiply and divide and, for divide,
    the divisor is not zero; the detail of a successful response names the
    operation in lower case.  A zero second operand is refused for divide
    only. *)
Theorem calculate_succeeds_iff :
  forall (float_str : float -> string) (request : Calculator.CalculationRequest),
    ((exists response, Calculator.calculate float_str request
                       = Calculator.Respond response)
     <-> (In (str_lower (Calculator.operation request))
             Calculator.supported_operations
          /\ (str_lower (Calculator.operation request) = "divide" ->
              PrimFloat.eqb (Calculator.b request) 0%float = false)))
    /\ (forall response,
          Calculator.calculate float_str request = Calculator.Respond response ->
          Calculator.detail response
          = "Successfully performed " ++ str_lower (Calculator.operation request)
            ++ " on " ++ float_str (Calculator.a request)
            ++ " and " ++ float_str (Calculator.b request) ++ ".").
Proof.
  intros float_str request. unfold Calculator.calculate.
  destruct (String.eqb_spec (str_lower (Calculator.operation request)) "add")
    as [E|N1].
  { split; [|intros r H; inversion H; reflexivity].
    split; [intros _|eauto]. rewrite E. split; [simpl; auto | discriminate]. }
  destruct (String.eqb_spec (str_lower (Calculator.operation request)) "subtract")
    as [E|N2].
  { split; [|intros r H; inversion H; reflexivity].
    split; [intros _|eauto]. rewrite E. split; [simpl; auto | discriminate]. }
  destruct (String.eqb_spec (str_lower (Calculator.operation request)) "multiply")
    as [E|N3].
  { split; [|intros r H; inversion H; reflexivity].
    split; [intros _|eauto]. rewrite E. split; [simpl; auto | discriminate]. }
  destruct (String.eqb_spec (str_lower (Calculator.operation request)) "divide")
    as [E|N4].
  { destruct (PrimFloat.eqb (Calculator.b request) 0) eqn:Hz.
    - split; [|intros r H; discriminate H].
      split; [intros [r H]; discriminate H|].
      intros [_ H]. specialize (H E). discriminate H.
    - split; [|intros r H; inversion H; reflexivity].
      split; [intros _|eauto]. rewrite E. split; [simpl; auto 6 | reflexivity]. }
  split; [|intros r H; discriminate H].
  split; [intros [r H]; discriminate H|].
  intros [Hin _]. simpl in Hin. intuition congruence.
Qed.

(** X20. Every refusal of the calculator is an HTTP 400, of one of two
    kinds: a division whose divisor equals zero (negative zero included),
    with the detail ["Division by zero is not allowed."], or an operation
    outside the four supported, with a detail that quotes the operation as
    the caller wrote it. *)
Theorem calculate_refusals :
  forall (float_str : float -> string) (request : Calculator.CalculationRequest)
         (status : Z) (reason : string),
    Calculator.calculate float_str request = Calculator.HTTPException status reason ->
    status = 400%Z
    /\ ((str_lower (Calculator.operation request) = "divide"
         /\ PrimFloat.eqb (Calculator.b request) 0%float = true
         /\ reason = "Division by zero is not allowed.")
        \/ (~ In (str_lower (Calculator.operation request))
                 Calculator.supported_operations
            /\ reason = "Invalid operation: " ++ Calculator.operation request
                        ++ ". Supported operations are add, subtract, multiply, divide.")).
Proof.
  intros float_str request status reason. unfold Calculator.calculate.
  destruct (String.eqb_spec (str_lower (Calculator.operation request)) "add");
    [discriminate|].
  destruct (String.eqb_spec (str_lower (Calculator.operation request)) "subtract");
    [discriminate|].
  destruct (String.eqb_spec (str_lower (Calculator.operation request)) "multiply");
    [discriminate|].
  destruct (String.eqb_spec (str_lower (Calculator.operation request)) "divide")
    as [E|N].
  - destruct (PrimFloat.eqb (Calculator.b request) 0) eqn:Hz; [|discriminate].
    intros H. inversion H; subst. auto.
  - intros H. inversion H; subst. split; [reflexivity|]. right.
    split; [|reflexivity]. simpl. intuition congruence.
Qed.

Lemma calculate_refusals_witness :
  400%Z = 400%Z
  /\ ((str_lower "Divide" = "divide"
       /\ PrimFloat.eqb (-0)%float 0%float = true
       /\ "Division by zero is not allowed." = "Division by zero is not allowed.")
      \/ (~ In (str_lower "Divide") Calculator.supported_operations
          /\ "Division by zero is not allowed."
             = "Invalid operation: " ++ "Divide"
               ++ ". Supported operations are add, subtract, multiply, divide.")).
Proof.
  apply (calculate_refusals (fun _ => "x")
           {| Calculator.operation := "Divide"; Calculator.a := 1%float;
              Calculator.b := (-0)%float |}
           400%Z "Division by zero is not allowed.").
  reflexivity.
Defined.

(** * The weather service *)

Lemma stub_lookup_in (name : string) (table : list (string * Weather.StubWeather))
    (w : Weather.StubWeather) :
  Weather.stub_lookup name table = Some w -> In (name, w) table.
Proof.
  induction table as [|[k v] table IH]; simpl; [discriminate|].
  destruct (String.eqb_spec name k) as [->|_].
  - intros H. inversion H. now left.
  - intros H. right. now apply IH.
Qed.

Section WeatherProperties.

Variable generator : Type.
Variable uniform : float -> float -> generator -> float * generator.
Variable randint : Z -> Z -> generator -> Z * generator.
Variable round1 : float -> float.

(** X21. For each city of the stub table the response is the table's
    entry with the city echoed, and no random number is drawn: the
    generator is handed back as it was. *)
Theorem known_city_weather :
  forall (name : string) (w : Weather.StubWeather) (g : generator),
    In (name, w) Weather.STUB_WEATHER_DATA ->
    Weather.get_weather generator uniform randint round1
      {| Weather.request_city := name |} g
    = ({| Weather.city := name;
          Weather.temperature := Weather.stub_temperature w;
          Weather.description := Weather.stub_description w;
          Weather.humidity := Weather.stub_humidity w |}, g).
Proof.
  intros name w g Hin. simpl in Hin.
  destruct Hin as [E|[E|[E|[E|[]]]]]; inversion E; subst; reflexivity.
Qed.

(** X22. Every response echoes the city that was asked for, and, as long
    as [randint] keeps within its bounds, its humidity lies between 40 and
    90, for the cities of the table as for any other. *)
Theorem weather_echoes_city_and_bounds_humidity :
  (forall lo hi g, (lo <= hi)%Z -> (lo <= fst (randint lo hi g) <= hi)%Z) ->
  forall (request : Weather.WeatherRequest) (g : generator),
    let response := fst (Weather.get_weather generator uniform randint round1 request g) in
    Weather.city response = Weather.request_city request
    /\ (40 <= Weather.humidity response <= 90)%Z.
Proof.
  intros Hrand request g. unfold Weather.get_weather.
  destruct (Weather.stub_lookup _ _) as [w|] eqn:Hl.
  - cbn. split; [reflexivity|].
    apply stub_lookup_in in Hl. simpl in Hl.
    destruct Hl as [E|[E|[E|[E|[]]]]]; inversion E; subst; cbn; lia.
  - destruct (uniform _ _ g) as [t g1].
    pose proof (Hrand 40%Z 90%Z g1 ltac:(lia)) as Hh.
    destruct (randint 40 90 g1) as [h g2]. cbn in *. split; [reflexivity | exact Hh].
Qed.

(** X23. The description ["Random weather condition"] marks exactly the
    cities that are not in the stub table, names being compared as they
    are written. *)
Theorem random_description_iff_unknown_city :
  forall (request : Weather.WeatherRequest) (g : generator),
    Weather.description
      (fst (Weather.get_weather generator uniform randint round1 request g))
    = "Random weather condition"
    <-> ~ In (Weather.request_city request) (map fst Weather.STUB_WEATHER_DATA).
Proof.
  intros [name] g. unfold Weather.get_weather, Weather.STUB_WEATHER_DATA.
  cbn [Weather.request_city Weather.stub_lookup map fst].
  destruct (String.eqb_spec name "New York") as [->|N1].
  { cbn. split; [discriminate | intros H; exfalso; apply H; auto]. }
  destruct (String.eqb_spec name "London") as [->|N2].
  { cbn. split; [discriminate | intros H; exfalso; apply H; auto]. }
  destruct (String.eqb_spec name "Tokyo") as [->|N3].
  { cbn. split; [discriminate | intros H; exfalso; apply H; auto]. }
  destruct (String.eqb_spec name "Sydney") as [->|N4].
  { cbn. split; [discriminate | intros H; exfalso; apply H; auto 6]. }
  destruct (uniform _ _ g) as [t g1]. destruct (randint 40 90 g1) as [h g2].
  cbn. split; [|reflexivity]. intros _ [E|[E|[E|[E|[]]]]]; congruence.
Qed.

End WeatherProperties.

Lemma known_city_weather_witness :
  Weather.get_weather unit (fun _ hi g => (hi, g)) (fun lo _ g => (lo, g))
    (fun x => x) {| Weather.request_city := "London" |} tt
  = ({| Weather.city := "London";
        Weather.temperature := 12.0%float;
        Weather.description := "Light drizzle and overcast";
        Weather.humidity := 85 |}, tt).
Proof.
  apply (known_city_weather unit (fun _ hi g => (hi, g)) (fun lo _ g => (lo, g))
           (fun x => x) "London"
           {| Weather.stub_temperature := 12.0%float;
              Weather.stub_description := "Light drizzle and overcast";
              Weather.stub_humidity := 85 |} tt).
  simpl. auto.
Defined.

Lemma weather_echoes_city_and_bounds_humidity_witness :
  let response :=
    fst (Weather.get_weather unit (fun _ hi g => (hi, g))
           (fun lo _ g => (lo, g)) (fun x => x)
           {| Weather.request_city := "Paris" |} tt) in
  Weather.city response = "Paris"
  /\ (40 <= Weather.humidity response <= 90)%Z.
Proof.
  apply (weather_echoes_city_and_bounds_humidity unit (fun _ hi g => (hi, g))
           (fun lo _ g => (lo, g)) (fun x => x)).
  intros lo hi g H. simpl. lia.
Defined.
